(** * Pallas/TPU primitives: abstract evaluation, effects and DMA futures

    A shallow embedding of [jax/_src/pallas/mosaic/primitives.py].  Each
    abstract-evaluation rule of the module is a Rocq function of the same
    name; Python exceptions are values of [Result]; the operations a wrapper
    binds are appended to an explicit trace state. *)

From Stdlib Require Import ZArith String List Lia.
From stdpp Require Import base decidable option list countable strings gmap.

Set Warnings "-register-all".
Local Open Scope string_scope.
Local Open Scope Z_scope.
Local Open Scope list_scope.

(** ** Abstract values *)

(** Element types, as [jnp.dtype] names them. *)
Inductive DType :=
| bool_ | int8 | int16 | int32 | int64
| uint8 | uint16 | uint32 | uint64
| bfloat16 | float16 | float32 | float64.

#[global] Instance DType_eq_dec : EqDecision DType.
Proof. solve_decision. Defined.

(** Modelled from the spec: [tpu_core.SemaphoreType], the kind of a
    semaphore; its declaration is not among the sources.  Only [REGULAR] is
    named by [primitives.py]; the other kinds stand for "any other member". *)
Inductive SemaphoreType := REGULAR | DMA | BARRIER.

#[global] Instance SemaphoreType_eq_dec : EqDecision SemaphoreType.
Proof. solve_decision. Defined.

(** Modelled from the spec: the abstract values the rules receive.  A
    [ShapedArray] is a shape with an element type, an [AbstractRef] is a
    buffer reference exposing the shape and element type of what it holds,
    an [AbstractSemaphore] has a kind and neither a shape nor an element
    type.  The classes themselves ([jax_core.ShapedArray],
    [tpu_core.AbstractSemaphore]) are declared outside the sources. *)
Inductive AbstractValue :=
| ShapedArray (shape : list Z) (dtype : DType)
| AbstractRef (shape : list Z) (dtype : DType)
| AbstractSemaphore (sem_type : SemaphoreType).

#[global] Instance AbstractValue_eq_dec : EqDecision AbstractValue.
Proof. solve_decision. Defined.

(** ** Exceptions and results *)

Inductive ExcType :=
| ValueError
| TypeError
| AttributeError
| IndexError
| OtherError (class_name : string).

#[global] Instance ExcType_eq_dec : EqDecision ExcType.
Proof. solve_decision. Defined.

(** Failures the interpreter reports by itself. *)
Inductive BuiltinFailure :=
| MissingAttribute (attr : string)
| IndexOutOfRange
| UnpackMismatch (expected got : nat)
| LeafCountMismatch
| BadCall.

(** An exception message: a literal, an f-string made of a literal followed
    by the rendering of an abstract value, or an interpreter failure. *)
Inductive Message :=
| Text (s : string)
| FString (s : string) (arg : AbstractValue)
| Builtin (b : BuiltinFailure).

Record Exception := mkExc { exc_type : ExcType; exc_msg : Message }.

Inductive Result (A : Type) :=
| Ok (a : A)
| Raise (e : Exception).
Arguments Ok {A} a.
Arguments Raise {A} e.

#[global] Instance Result_ret : MRet Result := @Ok.
#[global] Instance Result_bind : MBind Result := fun A B f r =>
  match r with
  | Ok a => f a
  | Raise e => Raise e
  end.

Definition raise {A} (t : ExcType) (m : Message) : Result A :=
  Raise (mkExc t m).

(** [map] of a function that may raise: stops at the first exception. *)
Fixpoint mapR {A B} (f : A -> Result B) (l : list A) : Result (list B) :=
  match l with
  | [] => Ok []
  | x :: l' => y ← f x; ys ← mapR f l'; Ok (y :: ys)
  end.

(** Attribute reads: an [AbstractSemaphore] has no [shape] and no
    [dtype]. *)
Definition getattr_shape (x : AbstractValue) : Result (list Z) :=
  match x with
  | ShapedArray shape _ | AbstractRef shape _ => Ok shape
  | AbstractSemaphore _ => raise AttributeError (Builtin (MissingAttribute "shape"))
  end.

Definition getattr_dtype (x : AbstractValue) : Result DType :=
  match x with
  | ShapedArray _ dtype | AbstractRef _ dtype => Ok dtype
  | AbstractSemaphore _ => raise AttributeError (Builtin (MissingAttribute "dtype"))
  end.

(** Python's list indexing: a negative index counts from the end, an index
    outside the list raises [IndexError]. *)
Definition py_index (n : nat) (i : Z) : Result nat :=
  let j := if i <? 0 then i + Z.of_nat n else i in
  if (0 <=? j) && (j <? Z.of_nat n) then Ok (Z.to_nat j)
  else raise IndexError (Builtin IndexOutOfRange).

(** ** [repeat] *)

(** [_repeat_abstract_eval(x, *, repeats, axis)]:
    [shape = list(x.shape); shape[axis] *= repeats;
     return ShapedArray(shape, x.dtype)]. *)
Definition _repeat_abstract_eval (x : AbstractValue) (repeats axis : Z)
  : Result AbstractValue :=
  shape ← getattr_shape x;
  i ← py_index (length shape) axis;
  let shape := <[i := (shape !!! i) * repeats]> shape in
  dtype ← getattr_dtype x;
  Ok (ShapedArray shape dtype).

(** ** [device_id] *)

(** [_device_id_abstract_eval()]: [ShapedArray((), jnp.dtype("int32"))]. *)
Definition _device_id_abstract_eval : AbstractValue := ShapedArray [] int32.

(** ** [trace_start], [trace_stop] *)

Definition _trace_start_abstract_eval (message : string) (level : Z)
  : list AbstractValue := [].

Definition _trace_stop_abstract_eval : list AbstractValue := [].

(** ** Semaphores *)

(** [_semaphore_signal_abstract_eval(sem_aval, value, *args, has_device_id)]. *)
Definition _semaphore_signal_abstract_eval (sem_aval value : AbstractValue)
    (args : list AbstractValue) (has_device_id : bool)
  : Result (list AbstractValue) :=
  match sem_aval with
  | AbstractSemaphore sem_type =>
      if decide (sem_type ≠ REGULAR) then
        raise ValueError (Text "Must signal a REGULAR semaphore.")
      else
        value_dtype ← getattr_dtype value;
        if decide (value_dtype ≠ int32) then
          raise ValueError (Text "Must signal an int32 value.")
        else if has_device_id then
          match args with
          | [device_id] =>
              device_id_dtype ← getattr_dtype device_id;
              if decide (device_id_dtype ≠ int32) then
                raise ValueError (Text "`device_id` must be an int32 value.")
              else Ok []
          | _ => raise ValueError (Builtin (UnpackMismatch 1 (length args)))
          end
        else Ok []
  | _ =>
      raise ValueError (FString "Cannot signal on a non-semaphore value: " sem_aval)
  end.

(** [_semaphore_wait_abstract_eval(sem_aval, value)]. *)
Definition _semaphore_wait_abstract_eval (sem_aval value : AbstractValue)
  : Result (list AbstractValue) :=
  match sem_aval with
  | AbstractSemaphore sem_type =>
      if decide (sem_type ≠ REGULAR) then
        raise ValueError (Text "Must wait a REGULAR semaphore.")
      else
        value_dtype ← getattr_dtype value;
        if decide (value_dtype ≠ int32) then
          raise ValueError (Text "Must signal an int32 value.")
        else Ok []
  | _ =>
      raise ValueError (FString "Cannot wait on a non-semaphore value: " sem_aval)
  end.

(** ** Effects *)

(** Modelled from the spec: an effect is a typed marker; an input-effect
    ([effects.JaxprInputEffect] and its subclasses, named by [kind]) refers
    to an operand position of the sub-program that declares it.  The class
    is declared outside the sources. *)
Inductive Effect :=
| JaxprInputEffect (kind : string) (input_index : Z)
| PlainEffect (name : string).

#[global] Instance Effect_eq_dec : EqDecision Effect.
Proof. solve_decision. Defined.

#[global] Instance Effect_countable : Countable Effect.
Proof.
  refine (inj_countable'
    (fun e => match e with
              | JaxprInputEffect k i => inl (k, i)
              | PlainEffect n => inr n
              end)
    (fun s => match s with
              | inl (k, i) => JaxprInputEffect k i
              | inr n => PlainEffect n
              end) _).
  by intros [].
Defined.

Definition no_effects : gset Effect := ∅.

(** A variable of a sub-program. *)
Record Var := mkVar { var_count : nat; var_aval : AbstractValue }.

(** Modelled from the spec: the sub-program a body is traced to.  The rules
    of this module read its constant-inputs and its declared effects; the
    formal parameters follow the constant-inputs in the numbering of
    operand positions. *)
Record Jaxpr := mkJaxpr {
  constvars : list Var;
  jaxpr_invars : list Var;
  effects : gset Effect
}.

(** ** [run_scoped]: abstract evaluation *)

(** The condition of the comprehension:
    [isinstance(eff, effects.JaxprInputEffect)
     and eff.input_index >= len(jaxpr.constvars)]. *)
Definition is_scope_local (jaxpr : Jaxpr) (eff : Effect) : bool :=
  match eff with
  | JaxprInputEffect _ input_index =>
      bool_decide (input_index >= Z.of_nat (length (constvars jaxpr)))
  | PlainEffect _ => false
  end.

(** [_run_scoped_abstract_eval] over [args] and [jaxpr]. *)
Definition _run_scoped_abstract_eval (args : list AbstractValue) (jaxpr : Jaxpr)
  : list AbstractValue * gset Effect :=
  let nonlocal_effects :=
    filter (fun eff => negb (is_scope_local jaxpr eff) = true) (effects jaxpr) in
  ([], nonlocal_effects).

(** ** Nested operand structures *)

(** Modelled from the spec: the flatten/unflatten capability ([tree_util],
    outside the sources) packs a nested structure of operands into a flat
    sequence of leaves plus a structural descriptor, and reverses that
    packing.  [None] is a node without leaves; a dict is kept with its items
    in the order in which flattening visits them; a registered node class
    (such as the region descriptor) carries static data and children. *)
Inductive PyTree (L : Type) :=
| PyLeaf (x : L)
| PyNone
| PyTuple (items : list (PyTree L))
| PyDict (entries : list (string * PyTree L))
| PyCustom (node_type : string) (aux_data : list Z) (children : list (PyTree L)).
Arguments PyLeaf {L} x.
Arguments PyNone {L}.
Arguments PyTuple {L} items.
Arguments PyDict {L} entries.
Arguments PyCustom {L} node_type aux_data children.

Inductive PyTreeDef :=
| LeafDef
| NoneDef
| TupleDef (items : list PyTreeDef)
| DictDef (entries : list (string * PyTreeDef))
| CustomDef (node_type : string) (aux_data : list Z) (children : list PyTreeDef).

Section TreeUtil.
Context {L : Type}.

Fixpoint tree_leaves (t : PyTree L) : list L :=
  match t with
  | PyLeaf x => [x]
  | PyNone => []
  | PyTuple items => concat (map tree_leaves items)
  | PyDict entries => concat (map (fun kv => tree_leaves (snd kv)) entries)
  | PyCustom _ _ children => concat (map tree_leaves children)
  end.

Fixpoint tree_structure (t : PyTree L) : PyTreeDef :=
  match t with
  | PyLeaf _ => LeafDef
  | PyNone => NoneDef
  | PyTuple items => TupleDef (map tree_structure items)
  | PyDict entries =>
      DictDef (map (fun kv => (fst kv, tree_structure (snd kv))) entries)
  | PyCustom node_type aux_data children =>
      CustomDef node_type aux_data (map tree_structure children)
  end.

(** [tree_util.tree_flatten]. *)
Definition tree_flatten (t : PyTree L) : list L * PyTreeDef :=
  (tree_leaves t, tree_structure t).

(** Rebuilds a sequence of nodes, each from the leaves the one before it
    left over. *)
Definition unflatten_seq {D T : Type}
    (f : D -> list L -> option (T * list L))
  : list D -> list L -> option (list T * list L) :=
  fix go ds leaves :=
    match ds with
    | [] => Some ([], leaves)
    | d :: ds' =>
        match f d leaves with
        | Some (t, rest) =>
            match go ds' rest with
            | Some (ts, rest') => Some (t :: ts, rest')
            | None => None
            end
        | None => None
        end
    end.

(** Rebuilds one node from the front of the leaves and hands back the
    leaves it did not use; [None] when the leaves run out. *)
Fixpoint unflatten_from (d : PyTreeDef) (leaves : list L)
  : option (PyTree L * list L) :=
  match d with
  | LeafDef =>
      match leaves with
      | x :: rest => Some (PyLeaf x, rest)
      | [] => None
      end
  | NoneDef => Some (PyNone, leaves)
  | TupleDef items =>
      match unflatten_seq unflatten_from items leaves with
      | Some (ts, rest) => Some (PyTuple ts, rest)
      | None => None
      end
  | DictDef entries =>
      match unflatten_seq
              (fun kd leaves =>
                 match unflatten_from (snd kd) leaves with
                 | Some (t, rest) => Some ((fst kd, t), rest)
                 | None => None
                 end) entries leaves with
      | Some (ts, rest) => Some (PyDict ts, rest)
      | None => None
      end
  | CustomDef node_type aux_data children =>
      match unflatten_seq unflatten_from children leaves with
      | Some (ts, rest) => Some (PyCustom node_type aux_data ts, rest)
      | None => None
      end
  end.

(** [tree_util.tree_unflatten]: the leaves must be exactly as many as the
    descriptor has leaf positions. *)
Definition tree_unflatten (treedef : PyTreeDef) (leaves : list L)
  : Result (PyTree L) :=
  match unflatten_from treedef leaves with
  | Some (t, []) => Ok t
  | _ => raise ValueError (Builtin LeafCountMismatch)
  end.
End TreeUtil.

(** ** DMA: abstract evaluation *)

(** [_dma_start_abstract_eval] over [args] and [tree]: [del args, tree; return []]. *)
Definition _dma_start_abstract_eval (args : list AbstractValue) (tree : PyTreeDef)
  : list AbstractValue := [].

(** [_dma_wait_abstract_eval] over [args] and [tree]: [del args, tree; return []]. *)
Definition _dma_wait_abstract_eval (args : list AbstractValue) (tree : PyTreeDef)
  : list AbstractValue := [].

(** ** The registry and [bind] *)

Inductive Primitive :=
| repeat_p
| trace_start_p
| trace_stop_p
| run_scoped_p
| semaphore_signal_p
| semaphore_wait_p
| dma_start_p
| dma_wait_p
| device_id_p.

#[global] Instance Primitive_eq_dec : EqDecision Primitive.
Proof. solve_decision. Defined.

(** [multiple_results] is set on every primitive but [repeat] and
    [device_id]. *)
Definition multiple_results (p : Primitive) : bool :=
  match p with
  | repeat_p | device_id_p => false
  | _ => true
  end.

(** The keyword parameters a primitive is bound with. *)
Inductive Params :=
| repeat_params (repeats axis : Z)
| trace_start_params (message : string) (level : Z)
| no_params
| run_scoped_params (jaxpr : Jaxpr)
| semaphore_signal_params (has_device_id : bool)
| tree_params (tree : PyTreeDef).

(** The rule registered for each primitive, called with the operands'
    abstract values and the keyword parameters.  A rule registered with
    [def_abstract_eval] declares no effects; [run_scoped_p] registers an
    effectful rule.  Operands or parameters that do not fit the rule's
    signature make the call itself fail with [TypeError]. *)
Definition abstract_eval (p : Primitive) (avals : list AbstractValue)
    (params : Params) : Result (list AbstractValue * gset Effect) :=
  match p, params with
  | repeat_p, repeat_params repeats axis =>
      match avals with
      | [x] => out ← _repeat_abstract_eval x repeats axis; Ok ([out], no_effects)
      | _ => raise TypeError (Builtin BadCall)
      end
  | trace_start_p, trace_start_params message level =>
      match avals with
      | [] => Ok (_trace_start_abstract_eval message level, no_effects)
      | _ => raise TypeError (Builtin BadCall)
      end
  | trace_stop_p, no_params =>
      match avals with
      | [] => Ok (_trace_stop_abstract_eval, no_effects)
      | _ => raise TypeError (Builtin BadCall)
      end
  | run_scoped_p, run_scoped_params jaxpr =>
      Ok (_run_scoped_abstract_eval avals jaxpr)
  | semaphore_signal_p, semaphore_signal_params has_device_id =>
      match avals with
      | sem_aval :: value :: args =>
          outs ← _semaphore_signal_abstract_eval sem_aval value args has_device_id;
          Ok (outs, no_effects)
      | _ => raise TypeError (Builtin BadCall)
      end
  | semaphore_wait_p, no_params =>
      match avals with
      | [sem_aval; value] =>
          outs ← _semaphore_wait_abstract_eval sem_aval value;
          Ok (outs, no_effects)
      | _ => raise TypeError (Builtin BadCall)
      end
  | dma_start_p, tree_params tree =>
      Ok (_dma_start_abstract_eval avals tree, no_effects)
  | dma_wait_p, tree_params tree =>
      Ok (_dma_wait_abstract_eval avals tree, no_effects)
  | device_id_p, no_params =>
      match avals with
      | [] => Ok ([_device_id_abstract_eval], no_effects)
      | _ => raise TypeError (Builtin BadCall)
      end
  | _, _ => raise TypeError (Builtin BadCall)
  end.

(** An operand: a traced value, known by its identity and its abstract
    value. *)
Record Tracer := mkTracer { tracer_id : nat; aval : AbstractValue }.

#[global] Instance Tracer_eq_dec : EqDecision Tracer.
Proof. solve_decision. Defined.

(** One emitted operation. *)
Record JaxprEqn := mkEqn {
  primitive : Primitive;
  invars : list Tracer;
  params : Params;
  outvars : list AbstractValue;
  eqn_effects : gset Effect
}.

(** The operations emitted so far, oldest first. *)
Abbreviation TraceState := (list JaxprEqn).

(** A computation that emits operations and may raise.  What was emitted
    before an exception stays emitted. *)
Definition Tracing (A : Type) : Type := TraceState -> Result A * TraceState.

#[global] Instance Tracing_ret : MRet Tracing := fun A a st => (Ok a, st).
#[global] Instance Tracing_bind : MBind Tracing := fun A B f m st =>
  match m st with
  | (Ok a, st') => f a st'
  | (Raise e, st') => (Raise e, st')
  end.

Definition lift {A} (r : Result A) : Tracing A := fun st => (r, st).

(** Modelled from the spec: [bind] (the host engine's, outside the sources)
    looks up the primitive's abstract-evaluation rule and calls it with the
    operands' abstract values and the static parameters; when the rule
    returns, the operation is emitted with the results and effects the rule
    gave; when the rule raises, nothing is emitted. *)
Definition bind (p : Primitive) (args : list Tracer) (params : Params)
  : Tracing (list AbstractValue) := fun st =>
  match abstract_eval p (map aval args) params with
  | Ok (outs, effs) => (Ok outs, st ++ [mkEqn p args params outs effs])
  | Raise e => (Raise e, st)
  end.

(** How many operations of primitive [p] a trace state holds. *)
Definition count_emitted (p : Primitive) (st : TraceState) : nat :=
  length (filter (fun eqn => primitive eqn = p) st).

(** ** [trace]: a generator used as a context manager *)

(** A generator function decorated with [contextlib.contextmanager] whose
    body is [before; yield; after], the [yield] standing outside any [try]. *)
Record GeneratorContextManager := mkGenCM {
  before_yield : Tracing unit;
  after_yield : Tracing unit
}.

(** [with cm: body].  Entering runs the generator up to its [yield].  When
    the body returns, the generator is resumed and runs what follows the
    [yield].  When the body raises, the exception is thrown into the
    generator at the [yield]; nothing handles it there, so it leaves the
    generator at once and the [with] statement raises it again. *)
Definition with_ {A} (cm : GeneratorContextManager) (body : Tracing A)
  : Tracing A := fun st =>
  match before_yield cm st with
  | (Raise e, st1) => (Raise e, st1)
  | (Ok _, st1) =>
      match body st1 with
      | (Ok a, st2) =>
          match after_yield cm st2 with
          | (Ok _, st3) => (Ok a, st3)
          | (Raise e, st3) => (Raise e, st3)
          end
      | (Raise e, st2) => (Raise e, st2)
      end
  end.

(** [trace(message, level)]:
    [trace_start_p.bind(message=message, level=level); yield;
     trace_stop_p.bind()]. *)
Definition trace (message : string) (level : Z) : GeneratorContextManager :=
  {| before_yield :=
       _ ← bind trace_start_p [] (trace_start_params message level); mret tt;
     after_yield :=
       _ ← bind trace_stop_p [] no_params; mret tt |}.

(** ** [run_scoped] *)

Section RunScoped.
(** The host tracing engine and the resource type specifications are
    collaborators outside the sources: a type specification gives its
    abstract value through [get_aval]; [trace_to_jaxpr_dynamic] traces a
    body (flattened with the structure of its arguments) against abstract
    values and gives the sub-program and the captured constants, or
    raises what the body raised. *)
Context {Fun TypeSpec : Type}.
Variable get_aval : TypeSpec -> Result AbstractValue.
Variable trace_to_jaxpr_dynamic :
  Fun -> PyTreeDef -> list AbstractValue -> Result (Jaxpr * list Tracer).

(** [run_scoped(f, *types, **kw_types)]. *)
Definition run_scoped (f : Fun) (types : list (PyTree TypeSpec))
    (kw_types : list (string * PyTree TypeSpec)) : Tracing unit :=
  let '(flat_types, in_tree) :=
    tree_flatten (PyTuple [PyTuple types; PyDict kw_types]) in
  avals ← lift (mapR get_aval flat_types);
  '(jaxpr, consts) ← lift (trace_to_jaxpr_dynamic f in_tree avals);
  _ ← bind run_scoped_p consts (run_scoped_params jaxpr);
  mret tt.
End RunScoped.

(** ** [semaphore_signal], [semaphore_wait] *)

Section SemaphoreWrappers.
(** [jnp.asarray] belongs to [jax.numpy], outside the sources: the
    conversion of the amount to an array of the requested element type is a
    parameter.  It may raise (an amount it cannot convert), and it may emit
    operations of its own (the cast of a traced amount) before it returns
    the operand that is bound. *)
Context {Amount : Type}.
Variable asarray : Amount -> DType -> Tracing Tracer.

(** [semaphore_signal(sem, inc=1, *, device_id=None)]. *)
Definition semaphore_signal (sem : Tracer) (inc : Amount)
    (device_id : option Tracer) : Tracing unit :=
  inc ← asarray inc int32;
  let args := [sem; inc] in
  let has_device_id := bool_decide (device_id ≠ None) in
  let args :=
    match device_id with
    | Some device_id => args ++ [device_id]
    | None => args
    end in
  _ ← bind semaphore_signal_p args (semaphore_signal_params has_device_id);
  mret tt.

(** [semaphore_wait(sem, dec=1)]. *)
Definition semaphore_wait (sem : Tracer) (dec : Amount) : Tracing unit :=
  dec ← asarray dec int32;
  _ ← bind semaphore_wait_p [sem; dec] no_params;
  mret tt.
End SemaphoreWrappers.

(** ** DMA futures *)

Record DMAFuture := mkDMAFuture {
  flat_args : list Tracer;
  tree : PyTreeDef
}.

(** [DMAFuture.wait(self)]. *)
Definition wait (self : DMAFuture) : Tracing unit :=
  _ ← bind dma_wait_p (flat_args self) (tree_params (tree self));
  mret tt.

Section DMA.
(** The region descriptor is built by [indexing.NDIndexer.from_indices_shape]
    (outside the sources) from raw index expressions and the shape of the
    reference; it raises when the index expressions do not fit the shape.
    A region descriptor is an operand structure of its own. *)
Context {Indices : Type}.
Variable from_indices_shape : Indices -> list Z -> Result (PyTree Tracer).

(** [dma_start(src_ref, src_indices, dst_ref, dst_indices, sem)]. *)
Definition dma_start (src_ref : Tracer) (src_indices : Indices)
    (dst_ref : Tracer) (dst_indices : Indices) (sem : PyTree Tracer)
  : Tracing DMAFuture :=
  src_shape ← lift (getattr_shape (aval src_ref));
  src_indexer ← lift (from_indices_shape src_indices src_shape);
  dst_shape ← lift (getattr_shape (aval dst_ref));
  dst_indexer ← lift (from_indices_shape dst_indices dst_shape);
  let args := PyTuple [PyLeaf src_ref; src_indexer; PyLeaf dst_ref;
                       dst_indexer; sem; PyNone; PyNone] in
  let '(flat_args, tree) := tree_flatten args in
  _ ← bind dma_start_p flat_args (tree_params tree);
  let '(wait_args, tree) :=
    tree_flatten (PyTuple [sem; PyLeaf dst_ref; dst_indexer]) in
  mret (mkDMAFuture wait_args tree).

(** [remote_dma_start(src_ref, src_indices, dst_ref, dst_indices, src_sem,
    dst_sem, device_id)]. *)
Definition remote_dma_start (src_ref : Tracer) (src_indices : Indices)
    (dst_ref : Tracer) (dst_indices : Indices)
    (src_sem dst_sem device_id : PyTree Tracer)
  : Tracing (DMAFuture * DMAFuture) :=
  src_shape ← lift (getattr_shape (aval src_ref));
  src_indexer ← lift (from_indices_shape src_indices src_shape);
  dst_shape ← lift (getattr_shape (aval dst_ref));
  dst_indexer ← lift (from_indices_shape dst_indices dst_shape);
  let args := PyTuple [PyLeaf src_ref; src_indexer; PyLeaf dst_ref;
                       dst_indexer; dst_sem; src_sem; device_id] in
  let '(flat_args, tree) := tree_flatten args in
  _ ← bind dma_start_p flat_args (tree_params tree);
  let recv_wait_args := PyTuple [dst_sem; PyLeaf dst_ref; dst_indexer] in
  let '(recv_args, recv_tree) := tree_flatten recv_wait_args in
  let send_wait_args := PyTuple [src_sem; PyLeaf src_ref; src_indexer] in
  let '(send_args, send_tree) := tree_flatten send_wait_args in
  mret (mkDMAFuture send_args send_tree, mkDMAFuture recv_args recv_tree).
End DMA.

(** ** Inputs the statements below are run on *)

(** A region-descriptor constructor with one dynamic index per dimension:
    it raises when the number of indices is not the rank of the
    reference. *)
Definition one_index_per_dim (indices : list Tracer) (shape : list Z)
  : Result (PyTree Tracer) :=
  if decide (length indices = length shape) then
    Ok (PyCustom "NDIndexer" shape (map PyLeaf indices))
  else raise ValueError (Text "`indices` must be the same length as `Ref` shape.").

Definition scalar_i32 (n : nat) : Tracer := mkTracer n (ShapedArray [] int32).
Definition buffer (n : nat) (shape : list Z) : Tracer :=
  mkTracer n (AbstractRef shape float32).
Definition semaphore (n : nat) (kind : SemaphoreType) : Tracer :=
  mkTracer n (AbstractSemaphore kind).

(** Four amounts and what converting them to [int32] does: the Python
    numbers [1] and [1.5] become a scalar constant of the requested element
    type (nothing is emitted for a constant), [2**70] is refused with
    [OverflowError] and a NaN with [ValueError]. *)
Inductive SampleAmount :=
| amount_1
| amount_1_5
| amount_2_pow_70
| amount_nan.

Definition sample_asarray (x : SampleAmount) (dtype : DType) : Tracing Tracer :=
  lift
    match x with
    | amount_1 | amount_1_5 => Ok (mkTracer 1 (ShapedArray [] dtype))
    | amount_2_pow_70 => raise (OtherError "OverflowError") (Builtin BadCall)
    | amount_nan => raise ValueError (Builtin BadCall)
    end.

(** A sub-program with one captured constant (position 0) and one freshly
    allocated resource (position 1); it writes both and has one effect that
    is not an input-effect. *)
Definition scoped_jaxpr : Jaxpr :=
  {| constvars := [mkVar 0 (AbstractRef [8] float32)];
     jaxpr_invars := [mkVar 1 (AbstractSemaphore REGULAR)];
     effects := {[ JaxprInputEffect "WriteEffect" 0;
                   JaxprInputEffect "WriteEffect" 1;
                   PlainEffect "debug" ]} |}.

(** A body whose tracing raises. *)
Definition failing_trace (f : unit) (in_tree : PyTreeDef)
    (avals : list AbstractValue) : Result (Jaxpr * list Tracer) :=
  raise (OtherError "RuntimeError") (Text "malformed operand usage").

(** Type specifications that are their own abstract value. *)
Definition aval_of_spec (t : AbstractValue) : Result AbstractValue := Ok t.

(** A guarded region that raises after emitting nothing. *)
Definition failing_region : Tracing unit :=
  lift (raise (OtherError "RuntimeError") (Text "boom")).

(** The operations the [trace] scope emits. *)
Definition trace_start_eqn (message : string) (level : Z) : JaxprEqn :=
  mkEqn trace_start_p [] (trace_start_params message level) [] no_effects.

Definition trace_stop_eqn : JaxprEqn :=
  mkEqn trace_stop_p [] no_params [] no_effects.

(** ** Predicates on operands *)

(** An operand whose element type can be read and is not [int32]. *)
Definition not_int32 (x : AbstractValue) : Prop :=
  exists dtype, getattr_dtype x = Ok dtype /\ dtype <> int32.

(** A semaphore operand that is not a semaphore, or not a [REGULAR] one. *)
Definition not_regular_semaphore (x : AbstractValue) : Prop :=
  forall sem_type, x = AbstractSemaphore sem_type -> sem_type <> REGULAR.

(** ** Structural induction on operand structures *)

Section PyTreeInduction.
Context {L : Type} (P : PyTree L -> Prop).
Hypothesis P_leaf : forall x, P (PyLeaf x).
Hypothesis P_none : P PyNone.
Hypothesis P_tuple : forall items, Forall P items -> P (PyTuple items).
Hypothesis P_dict :
  forall entries, Forall (fun kv => P (snd kv)) entries -> P (PyDict entries).
Hypothesis P_custom :
  forall node_type aux_data children,
    Forall P children -> P (PyCustom node_type aux_data children).

Fixpoint PyTree_nested_ind (t : PyTree L) : P t :=
  match t with
  | PyLeaf x => P_leaf x
  | PyNone => P_none
  | PyTuple items =>
      P_tuple items
        ((fix all (l : list (PyTree L)) : Forall P l :=
            match l with
            | [] => List.Forall_nil P
            | t' :: l' => List.Forall_cons P t' l' (PyTree_nested_ind t') (all l')
            end) items)
  | PyDict entries =>
      P_dict entries
        ((fix all (l : list (string * PyTree L))
            : Forall (fun kv => P (snd kv)) l :=
            match l with
            | [] => List.Forall_nil _
            | kv :: l' =>
                List.Forall_cons (fun kv => P (snd kv)) kv l'
                  (PyTree_nested_ind (snd kv)) (all l')
            end) entries)
  | PyCustom node_type aux_data children =>
      P_custom node_type aux_data children
        ((fix all (l : list (PyTree L)) : Forall P l :=
            match l with
            | [] => List.Forall_nil P
            | t' :: l' => List.Forall_cons P t' l' (PyTree_nested_ind t') (all l')
            end) children)
  end.
End PyTreeInduction.


(** ** More inputs *)

(** A body that traces to [scoped_jaxpr], capturing one buffer. *)
Definition capturing_trace (f : unit) (in_tree : PyTreeDef)
    (avals : list AbstractValue) : Result (Jaxpr * list Tracer) :=
  Ok (scoped_jaxpr, [buffer 0 [8]]).

(** Type specifications given as abstract values; a [ShapedArray] is not a
    resource type and has no [get_aval]. *)
Definition aval_of_resource (t : AbstractValue) : Result AbstractValue :=
  match t with
  | ShapedArray _ _ => raise AttributeError (Builtin (MissingAttribute "get_aval"))
  | _ => Ok t
  end.

(** The operation [DMAFuture.wait] emits. *)
Definition dma_wait_eqn (future : DMAFuture) : JaxprEqn :=
  mkEqn dma_wait_p (flat_args future) (tree_params (tree future)) [] no_effects.

(** The number of elements of an array of the given shape. *)
Definition num_elements (shape : list Z) : Z := foldr Z.mul 1 shape.

(** The operands and the descriptor of the operation [dma_start] and
    [remote_dma_start] emit for the given operand structure. *)
Definition dma_start_eqn (args : PyTree Tracer) : JaxprEqn :=
  mkEqn dma_start_p (tree_leaves args) (tree_params (tree_structure args))
    [] no_effects.

(** ** Flattening and reconstruction *)

Section TreeUtilFacts.
Context {L : Type}.
Implicit Types (t : PyTree L) (leaves rest : list L).

Lemma unflatten_seq_flatten (items : list (PyTree L)) :
  Forall (fun t => forall rest,
            unflatten_from (tree_structure t) (tree_leaves t ++ rest)
            = Some (t, rest)) items ->
  forall rest,
    unflatten_seq unflatten_from (map tree_structure items)
      (concat (map tree_leaves items) ++ rest) = Some (items, rest).
Proof.
  induction 1 as [|t items Ht _ IH]; intros rest; simpl; [done|].
  rewrite <- app_assoc, Ht, IH. done.
Qed.

Lemma unflatten_from_flatten t rest :
  unflatten_from (tree_structure t) (tree_leaves t ++ rest) = Some (t, rest).
Proof.
  revert rest. induction t as [x| |items IH|entries IH|nt aux children IH]
    using PyTree_nested_ind; intros rest; simpl.
  - done.
  - done.
  - by rewrite unflatten_seq_flatten.
  - assert (Hgo : forall rest,
      unflatten_seq
        (fun (kd : string * PyTreeDef) leaves =>
           match unflatten_from (snd kd) leaves with
           | Some (t, rest) => Some ((fst kd, t), rest)
           | None => None
           end)
        (map (fun kv : string * PyTree L => (fst kv, tree_structure (snd kv))) entries)
        (concat (map (fun kv => tree_leaves (snd kv)) entries) ++ rest)
      = Some (entries, rest)).
    { induction IH as [|[k t] entries Ht _ IH']; intros rest'; simpl; [done|].
      simpl in Ht. rewrite <- app_assoc, Ht, IH'. done. }
    by rewrite Hgo.
  - by rewrite unflatten_seq_flatten.
Qed.

(** Flattening then reconstructing gives the structure back. *)
Lemma tree_unflatten_flatten t :
  tree_unflatten (snd (tree_flatten t)) (fst (tree_flatten t)) = Ok t.
Proof.
  unfold tree_unflatten, tree_flatten; simpl.
  rewrite <- (app_nil_r (tree_leaves t)), unflatten_from_flatten. done.
Qed.
End TreeUtilFacts.

(** ** [repeat] and [device_id] *)

Lemma py_index_in_range (n : nat) (i : Z) :
  0 <= i < Z.of_nat n -> py_index n i = Ok (Z.to_nat i).
Proof.
  intros [Hlo Hhi]. unfold py_index.
  destruct (Z.ltb_spec i 0) as [?|_]; [lia|].
  destruct (Z.leb_spec 0 i) as [_|?]; [|lia].
  destruct (Z.ltb_spec i (Z.of_nat n)) as [_|?]; [|lia].
  done.
Qed.

Lemma py_index_from_end (n : nat) (i : Z) :
  - Z.of_nat n <= i < 0 -> py_index n i = Ok (Z.to_nat (i + Z.of_nat n)).
Proof.
  intros [Hlo Hhi]. unfold py_index.
  destruct (Z.ltb_spec i 0) as [_|?]; [|lia].
  destruct (Z.leb_spec 0 (i + Z.of_nat n)) as [_|?]; [|lia].
  destruct (Z.ltb_spec (i + Z.of_nat n) (Z.of_nat n)) as [_|?]; [|lia].
  done.
Qed.

Lemma py_index_out_of_range (n : nat) (i : Z) :
  i < - Z.of_nat n \/ Z.of_nat n <= i ->
  py_index n i = raise IndexError (Builtin IndexOutOfRange).
Proof.
  intros Hout. unfold py_index.
  destruct (Z.ltb_spec i 0) as [Hneg|Hpos].
  - destruct (Z.leb_spec 0 (i + Z.of_nat n)) as [?|_]; [lia|]. done.
  - destruct (Z.leb_spec 0 i) as [_|?]; [|lia].
    destruct (Z.ltb_spec i (Z.of_nat n)) as [?|_]; [lia|]. done.
Qed.

(** An [axis] outside the rank makes the rule raise [IndexError]. *)
Lemma repeat_abstract_eval_bad_axis (shape : list Z) (dtype : DType)
    (repeats axis : Z) :
  axis < - Z.of_nat (length shape) \/ Z.of_nat (length shape) <= axis ->
  _repeat_abstract_eval (ShapedArray shape dtype) repeats axis
  = raise IndexError (Builtin IndexOutOfRange).
Proof.
  intros Hout. unfold _repeat_abstract_eval; simpl.
  by rewrite (py_index_out_of_range _ _ Hout).
Qed.

(** A negative [axis] counts from the last dimension. *)
Lemma repeat_abstract_eval_last_axis (dtype : DType) :
  _repeat_abstract_eval (ShapedArray [4; 5] dtype) 3 (-1)
  = Ok (ShapedArray [4; 15] dtype).
Proof. reflexivity. Qed.

(** C8.  On an abstract value with shape [shape] and element type [dtype]
    and an [axis] that is a dimension of it, the abstract evaluation of
    [repeat] returns a shaped array of the same rank and element type whose
    dimension [axis] is the old one times [repeats], every other dimension
    unchanged.  On shape (4, 5) with [repeats = 3] and [axis = 1] the
    result has shape (4, 15). *)
Theorem repeat_abstract_eval_shape (x : AbstractValue) (shape : list Z)
    (dtype : DType) (repeats axis : Z) :
  getattr_shape x = Ok shape ->
  getattr_dtype x = Ok dtype ->
  0 <= axis < Z.of_nat (length shape) ->
  (exists shape' : list Z,
     _repeat_abstract_eval x repeats axis = Ok (ShapedArray shape' dtype)
     /\ length shape' = length shape
     /\ (exists d, shape !! Z.to_nat axis = Some d
                   /\ shape' !! Z.to_nat axis = Some (d * repeats))
     /\ (forall j : nat, j <> Z.to_nat axis -> shape' !! j = shape !! j))
  /\ _repeat_abstract_eval (ShapedArray [4; 5] dtype) 3 1
     = Ok (ShapedArray [4; 15] dtype).
Proof.
  intros Hshape Hdtype Haxis. split; [|done].
  unfold _repeat_abstract_eval. rewrite Hshape; simpl.
  rewrite (py_index_in_range _ _ Haxis); simpl. rewrite Hdtype; simpl.
  set (i := Z.to_nat axis).
  assert (Hi : (i < length shape)%nat) by (subst i; lia).
  destruct (lookup_lt_is_Some_2 shape i Hi) as [d Hd].
  eexists; split; [done|]. split; [by rewrite length_insert|]. split.
  - exists d. split; [done|].
    rewrite list_lookup_insert_eq by done.
    by rewrite (list_lookup_total_correct _ _ _ Hd).
  - intros j Hj. by apply list_lookup_insert_ne.
Qed.

Lemma repeat_abstract_eval_shape_witness :
  exists shape' : list Z,
    _repeat_abstract_eval (ShapedArray [2; 3; 7] bfloat16) 4 2
    = Ok (ShapedArray shape' bfloat16)
    /\ length shape' = 3%nat.
Proof.
  destruct (repeat_abstract_eval_shape (ShapedArray [2; 3; 7] bfloat16)
              [2; 3; 7] bfloat16 4 2) as [(shape' & Heval & Hlen & _) _].
  - reflexivity.
  - reflexivity.
  - simpl; lia.
  - exists shape'. split; [exact Heval | exact Hlen].
Defined.

(** C9.  In every call context (whatever was emitted before), binding
    [device_id] evaluates to one abstract result, a rank-0 array of 32-bit
    signed integers, and declares no effects. *)
Theorem device_id_abstract_eval_scalar_int32 (st : TraceState) :
  _device_id_abstract_eval = ShapedArray [] int32
  /\ getattr_shape _device_id_abstract_eval = Ok []
  /\ getattr_dtype _device_id_abstract_eval = Ok int32
  /\ abstract_eval device_id_p [] no_params
     = Ok ([ShapedArray [] int32], no_effects)
  /\ fst (bind device_id_p [] no_params st) = Ok [ShapedArray [] int32].
Proof. repeat split. Qed.

(** ** The registry *)

(** A primitive without [multiple_results] evaluates to one result. *)
Lemma single_result_primitives (p : Primitive) (avals outs : list AbstractValue)
    (params : Params) (effs : gset Effect) :
  multiple_results p = false ->
  abstract_eval p avals params = Ok (outs, effs) ->
  length outs = 1%nat /\ effs = no_effects.
Proof.
  intros Hsingle Heval.
  destruct p; try discriminate Hsingle; destruct params; try discriminate Heval;
    simpl in Heval.
  - destruct avals as [|x [|? ?]]; try discriminate Heval.
    destruct (_repeat_abstract_eval x repeats axis); simpl in Heval;
      [|discriminate Heval].
    by injection Heval as <- <-.
  - destruct avals; try discriminate Heval. by injection Heval as <- <-.
Qed.

(** A rule registered without effects never declares any. *)
Lemma effectless_rules (p : Primitive) (avals outs : list AbstractValue)
    (params : Params) (effs : gset Effect) :
  p <> run_scoped_p ->
  abstract_eval p avals params = Ok (outs, effs) ->
  effs = no_effects.
Proof.
  intros Hp Heval.
  destruct p; try done; destruct params; try discriminate Heval;
    simpl in Heval;
    repeat match type of Heval with
           | context [match ?l with [] => _ | _ :: _ => _ end] =>
               destruct l; try discriminate Heval; simpl in Heval
           | context [mbind _ ?r] =>
               destruct r; simpl in Heval; try discriminate Heval
           end;
    by injection Heval as <- <-.
Qed.

(** ** DMA rules validate nothing *)

(** C10.  Whatever the operands and the structural descriptor, the
    abstract-evaluation rules of [dma_start] and [dma_wait] return the empty
    result list and declare no effects; binding either primitive never
    raises and emits the operation as given. *)
Theorem dma_abstract_eval_accepts_anything (args : list Tracer)
    (tree : PyTreeDef) (st : TraceState) :
  _dma_start_abstract_eval (map aval args) tree = []
  /\ _dma_wait_abstract_eval (map aval args) tree = []
  /\ abstract_eval dma_start_p (map aval args) (tree_params tree)
     = Ok ([], no_effects)
  /\ abstract_eval dma_wait_p (map aval args) (tree_params tree)
     = Ok ([], no_effects)
  /\ bind dma_start_p args (tree_params tree) st
     = (Ok [], st ++ [mkEqn dma_start_p args (tree_params tree) [] no_effects])
  /\ bind dma_wait_p args (tree_params tree) st
     = (Ok [], st ++ [mkEqn dma_wait_p args (tree_params tree) [] no_effects]).
Proof. repeat split. Qed.

(** ** Effects exposed by [run_scoped] *)

Lemma elem_of_nonlocal_effects (args : list AbstractValue) (jaxpr : Jaxpr)
    (eff : Effect) :
  eff ∈ snd (_run_scoped_abstract_eval args jaxpr)
  <-> eff ∈ effects jaxpr /\ is_scope_local jaxpr eff = false.
Proof.
  unfold _run_scoped_abstract_eval; simpl. rewrite elem_of_filter.
  destruct (is_scope_local jaxpr eff); simpl; intuition congruence.
Qed.

(** C1.  The effect set the abstract evaluation of [run_scoped] exposes
    holds exactly the effects of the sub-program that are not input-effects
    with a position at or beyond the constant-input count: an input-effect
    below the count is retained, one at or beyond it is dropped, and an
    effect that is not an input-effect is always retained.  The rule returns
    no results, and [bind] goes through it. *)
Theorem run_scoped_exposes_nonlocal_effects (args : list AbstractValue)
    (jaxpr : Jaxpr) :
  fst (_run_scoped_abstract_eval args jaxpr) = []
  /\ abstract_eval run_scoped_p args (run_scoped_params jaxpr)
     = Ok ([], snd (_run_scoped_abstract_eval args jaxpr))
  /\ (forall eff, eff ∈ snd (_run_scoped_abstract_eval args jaxpr) <->
        (eff ∈ effects jaxpr
         /\ ~ (exists kind i, eff = JaxprInputEffect kind i
                              /\ i >= Z.of_nat (length (constvars jaxpr)))))
  /\ (forall kind i,
        JaxprInputEffect kind i ∈ effects jaxpr ->
        i < Z.of_nat (length (constvars jaxpr)) ->
        JaxprInputEffect kind i ∈ snd (_run_scoped_abstract_eval args jaxpr))
  /\ (forall kind i,
        i >= Z.of_nat (length (constvars jaxpr)) ->
        JaxprInputEffect kind i ∉ snd (_run_scoped_abstract_eval args jaxpr))
  /\ (forall name,
        PlainEffect name ∈ effects jaxpr ->
        PlainEffect name ∈ snd (_run_scoped_abstract_eval args jaxpr)).
Proof.
  split; [done|]. split; [done|]. split; [|split; [|split]].
  - intros eff. rewrite elem_of_nonlocal_effects. split.
    + intros [Hin Hloc]. split; [done|]. intros (kind & i & -> & Hi).
      simpl in Hloc. by rewrite bool_decide_eq_false in Hloc.
    + intros [Hin Hno]. split; [done|].
      destruct eff as [kind i|name]; simpl; [|done].
      apply bool_decide_eq_false. intros Hi. apply Hno. by exists kind, i.
  - intros kind i Hin Hi. apply elem_of_nonlocal_effects. split; [done|].
    simpl. apply bool_decide_eq_false. lia.
  - intros kind i Hi Hin. apply elem_of_nonlocal_effects in Hin as [_ Hloc].
    simpl in Hloc. by rewrite bool_decide_eq_false in Hloc.
  - intros name Hin. by apply elem_of_nonlocal_effects.
Qed.

Lemma run_scoped_exposes_nonlocal_effects_witness :
  (JaxprInputEffect "WriteEffect" 0 ∈ snd (_run_scoped_abstract_eval [] scoped_jaxpr))
  /\ (JaxprInputEffect "WriteEffect" 1 ∉ snd (_run_scoped_abstract_eval [] scoped_jaxpr))
  /\ (PlainEffect "debug" ∈ snd (_run_scoped_abstract_eval [] scoped_jaxpr)).
Proof.
  destruct (run_scoped_exposes_nonlocal_effects [] scoped_jaxpr)
    as (_ & _ & _ & Hkeep & Hdrop & Hplain).
  split; [|split].
  - apply Hkeep; [|simpl; lia]. unfold scoped_jaxpr; simpl. set_solver.
  - apply Hdrop. simpl; lia.
  - apply Hplain. unfold scoped_jaxpr; simpl. set_solver.
Defined.

(** ** Semaphore validation *)

Local Ltac raises_ValueError :=
  eexists; split; [|reflexivity]; reflexivity.

(** The rules raise [ValueError]: signalling a scalar float as if it were a
    semaphore raises an exception that is a [ValueError], not a
    [TypeError]. *)
Lemma semaphore_validation_not_TypeError :
  exists e,
    _semaphore_signal_abstract_eval (ShapedArray [] float32)
      (ShapedArray [] int32) [] false = Raise e
    /\ abstract_eval semaphore_signal_p
         [ShapedArray [] float32; ShapedArray [] int32]
         (semaphore_signal_params false) = Raise e
    /\ exc_type e = ValueError
    /\ exc_type e <> TypeError.
Proof. eexists. repeat split; done. Qed.

(** C4 (amended).  When the semaphore operand is not a semaphore, or its
    kind is not [REGULAR], or the increment (decrement) has an element type
    other than [int32], or [signal] is told it has a [device_id], the
    increment is an array and the [device_id] operand has an element type
    other than [int32], the abstract-evaluation rule raises a [ValueError],
    and [bind] raises it without emitting anything. *)
Theorem semaphore_validation_raises_ValueError (sem value : Tracer)
    (args : list Tracer) (has_device_id : bool) (st : TraceState) :
  (not_regular_semaphore (aval sem)
   \/ not_int32 (aval value)
   \/ (has_device_id = true
       /\ (exists dtype, getattr_dtype (aval value) = Ok dtype)
       /\ exists device_id, args = [device_id] /\ not_int32 (aval device_id)) ->
   exists e,
     exc_type e = ValueError
     /\ _semaphore_signal_abstract_eval (aval sem) (aval value)
          (map aval args) has_device_id = Raise e
     /\ bind semaphore_signal_p (sem :: value :: args)
          (semaphore_signal_params has_device_id) st = (Raise e, st))
  /\ (not_regular_semaphore (aval sem) \/ not_int32 (aval value) ->
      exists e,
        exc_type e = ValueError
        /\ _semaphore_wait_abstract_eval (aval sem) (aval value) = Raise e
        /\ bind semaphore_wait_p [sem; value] no_params st = (Raise e, st)).
Proof.
  split.
  - intros Hbad.
    assert (Hsig : exists e, exc_type e = ValueError
               /\ _semaphore_signal_abstract_eval (aval sem) (aval value)
                    (map aval args) has_device_id = Raise e).
    { unfold _semaphore_signal_abstract_eval.
      destruct (aval sem) as [sh dt|sh dt|kind]; try raises_ValueError.
      destruct (decide (kind ≠ REGULAR)) as [Hk|Hk]; [raises_ValueError|].
      destruct Hbad as [Hsem|[(dt & Hdt & Hne)
                             |(-> & [vdt Hv] & dev & -> & dt & Hdt & Hne)]].
      - exfalso. by apply Hk, Hsem.
      - rewrite Hdt; simpl. rewrite decide_True by done. raises_ValueError.
      - rewrite Hv; simpl.
        destruct (decide (vdt ≠ int32)); [raises_ValueError|].
        simpl. rewrite Hdt; simpl. rewrite decide_True by done.
        raises_ValueError. }
    destruct Hsig as (e & Hty & Heval). exists e. split; [done|]. split; [done|].
    unfold bind; simpl. by rewrite Heval.
  - intros Hbadw.
    assert (Hw : exists e, exc_type e = ValueError
               /\ _semaphore_wait_abstract_eval (aval sem) (aval value) = Raise e).
    { unfold _semaphore_wait_abstract_eval.
      destruct (aval sem) as [sh dt|sh dt|kind]; try raises_ValueError.
      destruct (decide (kind ≠ REGULAR)) as [Hk|Hk]; [raises_ValueError|].
      destruct Hbadw as [Hsem|(dt & Hdt & Hne)].
      - exfalso. by apply Hk, Hsem.
      - rewrite Hdt; simpl. rewrite decide_True by done. raises_ValueError. }
    destruct Hw as (e & Hty & Heval). exists e. split; [done|]. split; [done|].
    unfold bind; simpl. by rewrite Heval.
Qed.

Lemma semaphore_validation_raises_ValueError_witness :
  (exists e,
     exc_type e = ValueError
     /\ bind semaphore_signal_p
          [semaphore 0 DMA; scalar_i32 1]
          (semaphore_signal_params false) [] = (Raise e, []))
  /\ (exists e,
        exc_type e = ValueError
        /\ bind semaphore_wait_p
             [semaphore 0 REGULAR; mkTracer 1 (ShapedArray [] float32)]
             no_params [] = (Raise e, [])).
Proof.
  split.
  - destruct (semaphore_validation_raises_ValueError
                (semaphore 0 DMA) (scalar_i32 1) [] false []) as [Hsignal _].
    destruct Hsignal as (e & Hty & _ & Hbind).
    + left. intros sem_type Heq. injection Heq as <-. discriminate.
    + exists e. split; [exact Hty | exact Hbind].
  - destruct (semaphore_validation_raises_ValueError
                (semaphore 0 REGULAR) (mkTracer 1 (ShapedArray [] float32))
                [] false []) as [_ Hwait].
    destruct Hwait as (e & Hty & _ & Hbind).
    + right. exists float32. split; [reflexivity | discriminate].
    + exists e. split; [exact Hty | exact Hbind].
Defined.

(** The wrappers do not reject a floating-point amount: the Python float
    [1.5] is converted to [int32] before the primitive is bound, and the
    operation is emitted. *)
Lemma semaphore_wrappers_accept_float :
  semaphore_signal sample_asarray (semaphore 0 REGULAR) amount_1_5 None []
  = (Ok tt,
     [mkEqn semaphore_signal_p [semaphore 0 REGULAR; scalar_i32 1]
        (semaphore_signal_params false) [] no_effects])
  /\ semaphore_wait sample_asarray (semaphore 0 REGULAR) amount_1_5 []
     = (Ok tt,
        [mkEqn semaphore_wait_p [semaphore 0 REGULAR; scalar_i32 1]
           no_params [] no_effects]).
Proof. split; reflexivity. Qed.

(** C5 (amended).  [semaphore_signal] and [semaphore_wait] first convert
    the amount to [int32].  When the conversion returns an [int32] array,
    the call on a [REGULAR] semaphore emits the operation over the converted
    amount, whatever the element type of the amount was; when the conversion
    raises, the call raises the same exception and binds nothing.  The
    abstract-evaluation rules themselves reject an amount whose element type
    is not [int32] with a [ValueError]; for [signal] its message is
    "Must signal an int32 value.". *)
Theorem semaphore_amount_is_converted_to_int32 {Amount : Type}
    (asarray : Amount -> DType -> Tracing Tracer) (sem : Tracer)
    (st : TraceState) :
  aval sem = AbstractSemaphore REGULAR ->
  (forall (x : Amount) (inc : Tracer) (st1 : TraceState),
     asarray x int32 st = (Ok inc, st1) ->
     getattr_dtype (aval inc) = Ok int32 ->
     semaphore_signal asarray sem x None st
     = (Ok tt,
        st1 ++ [mkEqn semaphore_signal_p [sem; inc]
                  (semaphore_signal_params false) [] no_effects])
     /\ semaphore_wait asarray sem x st
        = (Ok tt,
           st1 ++ [mkEqn semaphore_wait_p [sem; inc] no_params [] no_effects]))
  /\ (forall (x : Amount) (e : Exception) (st1 : TraceState)
             (device_id : option Tracer),
        asarray x int32 st = (Raise e, st1) ->
        semaphore_signal asarray sem x device_id st = (Raise e, st1)
        /\ semaphore_wait asarray sem x st = (Raise e, st1))
  /\ (forall value args has_device_id,
        not_int32 value ->
        _semaphore_signal_abstract_eval (aval sem) value args has_device_id
        = Raise (mkExc ValueError (Text "Must signal an int32 value."))
        /\ exists e, exc_type e = ValueError
                     /\ _semaphore_wait_abstract_eval (aval sem) value = Raise e).
Proof.
  intros Hsem. split; [|split].
  - intros x inc st1 Hconv Hdt.
    unfold semaphore_signal, semaphore_wait, bind, mbind, Tracing_bind.
    rewrite Hconv; simpl. rewrite Hsem; simpl. rewrite Hdt; simpl. done.
  - intros x e st1 device_id Hconv.
    unfold semaphore_signal, semaphore_wait, mbind, Tracing_bind.
    by rewrite Hconv.
  - intros value args has_device_id (dtype & Hdt & Hne).
    unfold _semaphore_signal_abstract_eval, _semaphore_wait_abstract_eval.
    rewrite Hsem; simpl. rewrite Hdt; simpl. rewrite !decide_True by done.
    split; [done|]. raises_ValueError.
Qed.

Lemma semaphore_amount_is_converted_to_int32_witness :
  semaphore_wait sample_asarray (semaphore 3 REGULAR) amount_1_5 []
  = (Ok tt,
     [mkEqn semaphore_wait_p [semaphore 3 REGULAR; scalar_i32 1]
        no_params [] no_effects])
  /\ semaphore_signal sample_asarray (semaphore 3 REGULAR) amount_2_pow_70 None []
     = (Raise (mkExc (OtherError "OverflowError") (Builtin BadCall)), []).
Proof.
  destruct (semaphore_amount_is_converted_to_int32 sample_asarray
              (semaphore 3 REGULAR) []) as (Hconverted & Hrefused & _).
  - reflexivity.
  - split.
    + apply (Hconverted amount_1_5 (scalar_i32 1) []); reflexivity.
    + apply (Hrefused amount_2_pow_70 _ [] None). reflexivity.
Defined.

(** ** The [trace] scope *)

(** When the guarded region raises, the scope is left without a
    [trace_stop]: one [trace_start] was emitted and no [trace_stop]. *)
Lemma trace_scope_raising_region_emits_no_stop :
  exists e st,
    with_ (trace "region" 10) failing_region [] = (Raise e, st)
    /\ count_emitted trace_start_p st = 1%nat
    /\ count_emitted trace_stop_p st = 0%nat.
Proof. eexists _, _. repeat split. Qed.

(** C6 (amended).  Entering the [trace] scope emits exactly one
    [trace_start]; when the guarded region returns, leaving the scope emits
    exactly one [trace_stop] after what the region emitted; when the guarded
    region raises, the exception passes through the scope and nothing more
    is emitted.  Both operations have no results and no effects. *)
Theorem trace_scope_emissions {A : Type} (message : string) (level : Z)
    (body : Tracing A) (st : TraceState) :
  with_ (trace message level) body st
  = match body (st ++ [trace_start_eqn message level]) with
    | (Ok a, st') => (Ok a, st' ++ [trace_stop_eqn])
    | (Raise e, st') => (Raise e, st')
    end
  /\ abstract_eval trace_start_p [] (trace_start_params message level)
     = Ok ([], no_effects)
  /\ abstract_eval trace_stop_p [] no_params = Ok ([], no_effects).
Proof.
  split; [|done].
  unfold with_, trace, bind, mbind, Tracing_bind; simpl.
  unfold trace_start_eqn, trace_stop_eqn, _trace_start_abstract_eval,
    _trace_stop_abstract_eval.
  destruct (body _) as [[a|e] st']; done.
Qed.

(** ** [run_scoped]: tracing the body *)

Section RunScopedFacts.
Context {Fun TypeSpec : Type}.
Variable get_aval : TypeSpec -> Result AbstractValue.
Variable trace_to_jaxpr_dynamic :
  Fun -> PyTreeDef -> list AbstractValue -> Result (Jaxpr * list Tracer).

(** A body that traces emits one [run_scoped] operation over the captured
    constants, with the effects the abstract evaluation retains. *)
Lemma run_scoped_emits (f : Fun) (types : list (PyTree TypeSpec))
    (kw_types : list (string * PyTree TypeSpec)) (avals : list AbstractValue)
    (jaxpr : Jaxpr) (consts : list Tracer) (st : TraceState) :
  mapR get_aval
    (fst (tree_flatten (PyTuple [PyTuple types; PyDict kw_types]))) = Ok avals ->
  trace_to_jaxpr_dynamic f
    (snd (tree_flatten (PyTuple [PyTuple types; PyDict kw_types]))) avals
  = Ok (jaxpr, consts) ->
  run_scoped get_aval trace_to_jaxpr_dynamic f types kw_types st
  = (Ok tt,
     st ++ [mkEqn run_scoped_p consts (run_scoped_params jaxpr) []
              (snd (_run_scoped_abstract_eval (map aval consts) jaxpr))]).
Proof.
  intros Havals Htrace.
  unfold run_scoped, tree_flatten in *; simpl in *.
  unfold mbind, Tracing_bind, lift. rewrite Havals, Htrace. done.
Qed.
End RunScopedFacts.

(** C7.  When tracing the body fails, [run_scoped] raises the very
    exception the tracing raised and leaves the trace state as it found it:
    no [run_scoped] operation (nor anything else) is emitted. *)
Theorem run_scoped_propagates_tracing_failure {Fun TypeSpec : Type}
    (get_aval : TypeSpec -> Result AbstractValue)
    (trace_to_jaxpr_dynamic :
       Fun -> PyTreeDef -> list AbstractValue -> Result (Jaxpr * list Tracer))
    (f : Fun) (types : list (PyTree TypeSpec))
    (kw_types : list (string * PyTree TypeSpec)) (avals : list AbstractValue)
    (e : Exception) (st : TraceState) :
  mapR get_aval
    (fst (tree_flatten (PyTuple [PyTuple types; PyDict kw_types]))) = Ok avals ->
  trace_to_jaxpr_dynamic f
    (snd (tree_flatten (PyTuple [PyTuple types; PyDict kw_types]))) avals
  = Raise e ->
  run_scoped get_aval trace_to_jaxpr_dynamic f types kw_types st = (Raise e, st)
  /\ count_emitted run_scoped_p
       (snd (run_scoped get_aval trace_to_jaxpr_dynamic f types kw_types st))
     = count_emitted run_scoped_p st.
Proof.
  intros Havals Htrace.
  assert (Hrun : run_scoped get_aval trace_to_jaxpr_dynamic f types kw_types st
                 = (Raise e, st)).
  { unfold run_scoped, tree_flatten in *; simpl in *.
    unfold mbind, Tracing_bind, lift. rewrite Havals, Htrace. done. }
  split; [done|]. by rewrite Hrun.
Qed.

Lemma run_scoped_propagates_tracing_failure_witness :
  run_scoped aval_of_spec failing_trace tt
    [PyLeaf (AbstractSemaphore REGULAR)] [("scratch", PyLeaf (AbstractRef [8] float32))]
    [trace_stop_eqn]
  = (Raise (mkExc (OtherError "RuntimeError") (Text "malformed operand usage")),
     [trace_stop_eqn]).
Proof.
  refine (proj1 (run_scoped_propagates_tracing_failure aval_of_spec failing_trace
                   tt [PyLeaf (AbstractSemaphore REGULAR)]
                   [("scratch", PyLeaf (AbstractRef [8] float32))]
                   [AbstractSemaphore REGULAR; AbstractRef [8] float32]
                   _ [trace_stop_eqn] _ _)).
  - reflexivity.
  - reflexivity.
Defined.

(** ** DMA futures *)

Section DMAFacts.
Context {Indices : Type}.
Variable from_indices_shape : Indices -> list Z -> Result (PyTree Tracer).

(** What [dma_start] does when both region descriptors can be built. *)
Lemma dma_start_emits (src_ref dst_ref : Tracer) (src_indices dst_indices : Indices)
    (sem : PyTree Tracer) (src_shape dst_shape : list Z)
    (src_indexer dst_indexer : PyTree Tracer) (st : TraceState) :
  getattr_shape (aval src_ref) = Ok src_shape ->
  from_indices_shape src_indices src_shape = Ok src_indexer ->
  getattr_shape (aval dst_ref) = Ok dst_shape ->
  from_indices_shape dst_indices dst_shape = Ok dst_indexer ->
  dma_start from_indices_shape src_ref src_indices dst_ref dst_indices sem st
  = (Ok (mkDMAFuture
           (tree_leaves (PyTuple [sem; PyLeaf dst_ref; dst_indexer]))
           (tree_structure (PyTuple [sem; PyLeaf dst_ref; dst_indexer]))),
     st ++ [mkEqn dma_start_p
              (tree_leaves (PyTuple [PyLeaf src_ref; src_indexer; PyLeaf dst_ref;
                                     dst_indexer; sem; PyNone; PyNone]))
              (tree_params
                 (tree_structure (PyTuple [PyLeaf src_ref; src_indexer;
                                           PyLeaf dst_ref; dst_indexer; sem;
                                           PyNone; PyNone])))
              [] no_effects]).
Proof.
  intros Hs Hsi Hd Hdi. unfold dma_start, mbind, Tracing_bind, lift.
  rewrite Hs, Hsi, Hd, Hdi. done.
Qed.

(** What [remote_dma_start] does when both region descriptors can be
    built. *)
Lemma remote_dma_start_emits (src_ref dst_ref : Tracer)
    (src_indices dst_indices : Indices)
    (src_sem dst_sem device_id : PyTree Tracer) (src_shape dst_shape : list Z)
    (src_indexer dst_indexer : PyTree Tracer) (st : TraceState) :
  getattr_shape (aval src_ref) = Ok src_shape ->
  from_indices_shape src_indices src_shape = Ok src_indexer ->
  getattr_shape (aval dst_ref) = Ok dst_shape ->
  from_indices_shape dst_indices dst_shape = Ok dst_indexer ->
  remote_dma_start from_indices_shape src_ref src_indices dst_ref dst_indices
    src_sem dst_sem device_id st
  = (Ok (mkDMAFuture
           (tree_leaves (PyTuple [src_sem; PyLeaf src_ref; src_indexer]))
           (tree_structure (PyTuple [src_sem; PyLeaf src_ref; src_indexer])),
         mkDMAFuture
           (tree_leaves (PyTuple [dst_sem; PyLeaf dst_ref; dst_indexer]))
           (tree_structure (PyTuple [dst_sem; PyLeaf dst_ref; dst_indexer]))),
     st ++ [mkEqn dma_start_p
              (tree_leaves (PyTuple [PyLeaf src_ref; src_indexer; PyLeaf dst_ref;
                                     dst_indexer; dst_sem; src_sem; device_id]))
              (tree_params
                 (tree_structure (PyTuple [PyLeaf src_ref; src_indexer;
                                           PyLeaf dst_ref; dst_indexer; dst_sem;
                                           src_sem; device_id])))
              [] no_effects]).
Proof.
  intros Hs Hsi Hd Hdi. unfold remote_dma_start, mbind, Tracing_bind, lift.
  rewrite Hs, Hsi, Hd, Hdi. done.
Qed.
End DMAFacts.

Lemma count_emitted_snoc (p : Primitive) (st : TraceState) (eqn : JaxprEqn) :
  primitive eqn = p ->
  count_emitted p (st ++ [eqn]) = S (count_emitted p st).
Proof.
  intros Hp. unfold count_emitted. rewrite filter_app, length_app.
  rewrite filter_cons_True by done. simpl. lia.
Qed.

(** C2.  When both region descriptors can be built from the references'
    shapes and the index expressions, [dma_start] returns a future without
    raising and emits one [dma_start] operation; [wait] on that future
    returns without raising and emits a [dma_wait] over the future's stored
    operands; and those operands reconstruct, by the future's structural
    descriptor, to exactly [(sem, dst_ref, dst_indexer)]. *)
Theorem dma_start_wait_roundtrip {Indices : Type}
    (from_indices_shape : Indices -> list Z -> Result (PyTree Tracer))
    (src_ref dst_ref : Tracer) (src_indices dst_indices : Indices)
    (sem : PyTree Tracer) (src_shape dst_shape : list Z)
    (src_indexer dst_indexer : PyTree Tracer) (st : TraceState) :
  getattr_shape (aval src_ref) = Ok src_shape ->
  from_indices_shape src_indices src_shape = Ok src_indexer ->
  getattr_shape (aval dst_ref) = Ok dst_shape ->
  from_indices_shape dst_indices dst_shape = Ok dst_indexer ->
  exists (future : DMAFuture) (st1 : TraceState),
    dma_start from_indices_shape src_ref src_indices dst_ref dst_indices sem st
    = (Ok future, st1)
    /\ count_emitted dma_start_p st1 = S (count_emitted dma_start_p st)
    /\ wait future st1
       = (Ok tt,
          st1 ++ [mkEqn dma_wait_p (flat_args future)
                    (tree_params (tree future)) [] no_effects])
    /\ tree_unflatten (tree future) (flat_args future)
       = Ok (PyTuple [sem; PyLeaf dst_ref; dst_indexer]).
Proof.
  intros Hs Hsi Hd Hdi. eexists _, _. split.
  - by apply (dma_start_emits from_indices_shape) with (1 := Hs) (3 := Hd).
  - split; [by apply count_emitted_snoc|]. split; [done|].
    apply (tree_unflatten_flatten (PyTuple [sem; PyLeaf dst_ref; dst_indexer])).
Qed.

Lemma dma_start_wait_roundtrip_witness :
  exists (future : DMAFuture) (st1 : TraceState),
    dma_start one_index_per_dim (buffer 0 [8; 128]) [scalar_i32 1; scalar_i32 2]
      (buffer 3 [16; 128]) [scalar_i32 4; scalar_i32 5]
      (PyLeaf (semaphore 6 DMA)) [] = (Ok future, st1)
    /\ tree_unflatten (tree future) (flat_args future)
       = Ok (PyTuple [PyLeaf (semaphore 6 DMA); PyLeaf (buffer 3 [16; 128]);
                      PyCustom "NDIndexer" [16; 128]
                        [PyLeaf (scalar_i32 4); PyLeaf (scalar_i32 5)]]).
Proof.
  destruct (dma_start_wait_roundtrip one_index_per_dim
              (buffer 0 [8; 128]) (buffer 3 [16; 128])
              [scalar_i32 1; scalar_i32 2] [scalar_i32 4; scalar_i32 5]
              (PyLeaf (semaphore 6 DMA)) [8; 128] [16; 128]
              (PyCustom "NDIndexer" [8; 128]
                 [PyLeaf (scalar_i32 1); PyLeaf (scalar_i32 2)])
              (PyCustom "NDIndexer" [16; 128]
                 [PyLeaf (scalar_i32 4); PyLeaf (scalar_i32 5)]) [])
    as (future & st1 & Hstart & _ & _ & Hround).
  - reflexivity.
  - reflexivity.
  - reflexivity.
  - reflexivity.
  - exists future, st1. split; [exact Hstart | exact Hround].
Defined.

(** Copying between two slots of one buffer: the buffer is a stored operand
    of the send future and of the receive future, so the two stored operand
    sets are not disjoint. *)
Lemma remote_dma_start_futures_share_operand :
  exists (send recv : DMAFuture) (st : TraceState),
    remote_dma_start one_index_per_dim
      (buffer 0 [2; 128]) [scalar_i32 1; scalar_i32 2]
      (buffer 0 [2; 128]) [scalar_i32 3; scalar_i32 4]
      (PyLeaf (semaphore 5 DMA)) (PyLeaf (semaphore 6 DMA))
      (PyLeaf (scalar_i32 7)) [] = (Ok (send, recv), st)
    /\ buffer 0 [2; 128] ∈ flat_args send
    /\ buffer 0 [2; 128] ∈ flat_args recv
    /\ ~ (forall t, t ∈ flat_args send -> t ∉ flat_args recv).
Proof.
  eexists _, _, _. split; [vm_compute; reflexivity|]. simpl.
  assert (Hs : buffer 0 [2; 128]
               ∈ [semaphore 5 DMA; buffer 0 [2; 128]; scalar_i32 1; scalar_i32 2])
    by (apply list_elem_of_In; simpl; tauto).
  assert (Hr : buffer 0 [2; 128]
               ∈ [semaphore 6 DMA; buffer 0 [2; 128]; scalar_i32 3; scalar_i32 4])
    by (apply list_elem_of_In; simpl; tauto).
  split; [exact Hs|]. split; [exact Hr|].
  intros Hdisj. exact (Hdisj _ Hs Hr).
Qed.

(** C3 (amended).  When both region descriptors can be built,
    [remote_dma_start] emits exactly one [dma_start] operation, whose
    operands reconstruct to [(src_ref, src_indexer, dst_ref, dst_indexer,
    dst_sem, src_sem, device_id)], and returns the pair of a send future
    holding [(src_sem, src_ref, src_indexer)] and a receive future holding
    [(dst_sem, dst_ref, dst_indexer)].  The stored operands of the two
    futures are disjoint exactly when the leaves of those two triples
    are. *)
Theorem remote_dma_start_futures {Indices : Type}
    (from_indices_shape : Indices -> list Z -> Result (PyTree Tracer))
    (src_ref dst_ref : Tracer) (src_indices dst_indices : Indices)
    (src_sem dst_sem device_id : PyTree Tracer) (src_shape dst_shape : list Z)
    (src_indexer dst_indexer : PyTree Tracer) (st : TraceState) :
  getattr_shape (aval src_ref) = Ok src_shape ->
  from_indices_shape src_indices src_shape = Ok src_indexer ->
  getattr_shape (aval dst_ref) = Ok dst_shape ->
  from_indices_shape dst_indices dst_shape = Ok dst_indexer ->
  exists (send recv : DMAFuture) (eqn : JaxprEqn) (start_tree : PyTreeDef),
    remote_dma_start from_indices_shape src_ref src_indices dst_ref dst_indices
      src_sem dst_sem device_id st = (Ok (send, recv), st ++ [eqn])
    /\ primitive eqn = dma_start_p
    /\ params eqn = tree_params start_tree
    /\ count_emitted dma_start_p (st ++ [eqn]) = S (count_emitted dma_start_p st)
    /\ tree_unflatten start_tree (invars eqn)
       = Ok (PyTuple [PyLeaf src_ref; src_indexer; PyLeaf dst_ref; dst_indexer;
                      dst_sem; src_sem; device_id])
    /\ tree_unflatten (tree send) (flat_args send)
       = Ok (PyTuple [src_sem; PyLeaf src_ref; src_indexer])
    /\ tree_unflatten (tree recv) (flat_args recv)
       = Ok (PyTuple [dst_sem; PyLeaf dst_ref; dst_indexer])
    /\ flat_args send = tree_leaves src_sem ++ src_ref :: tree_leaves src_indexer
    /\ flat_args recv = tree_leaves dst_sem ++ dst_ref :: tree_leaves dst_indexer
    /\ ((forall t, t ∈ flat_args send -> t ∉ flat_args recv) <->
        (forall t,
           t ∈ tree_leaves (PyTuple [src_sem; PyLeaf src_ref; src_indexer]) ->
           t ∉ tree_leaves (PyTuple [dst_sem; PyLeaf dst_ref; dst_indexer]))).
Proof.
  intros Hs Hsi Hd Hdi. eexists _, _, _, _. split.
  - by apply (remote_dma_start_emits from_indices_shape) with (1 := Hs) (3 := Hd).
  - split; [done|]. split; [done|]. split; [by apply count_emitted_snoc|].
    split; [|split; [|split; [|split; [|split]]]].
    + apply (tree_unflatten_flatten
               (PyTuple [PyLeaf src_ref; src_indexer; PyLeaf dst_ref; dst_indexer;
                         dst_sem; src_sem; device_id])).
    + apply (tree_unflatten_flatten (PyTuple [src_sem; PyLeaf src_ref; src_indexer])).
    + apply (tree_unflatten_flatten (PyTuple [dst_sem; PyLeaf dst_ref; dst_indexer])).
    + simpl. by rewrite app_nil_r.
    + simpl. by rewrite app_nil_r.
    + done.
Qed.

Lemma remote_dma_start_futures_witness :
  exists (send recv : DMAFuture) (st : TraceState),
    remote_dma_start one_index_per_dim
      (buffer 0 [8; 128]) [scalar_i32 1; scalar_i32 2]
      (buffer 3 [8; 128]) [scalar_i32 4; scalar_i32 5]
      (PyLeaf (semaphore 6 DMA)) (PyLeaf (semaphore 7 DMA))
      (PyLeaf (scalar_i32 8)) [] = (Ok (send, recv), st)
    /\ flat_args send
       = [semaphore 6 DMA; buffer 0 [8; 128]; scalar_i32 1; scalar_i32 2]
    /\ flat_args recv
       = [semaphore 7 DMA; buffer 3 [8; 128]; scalar_i32 4; scalar_i32 5].
Proof.
  destruct (remote_dma_start_futures one_index_per_dim
              (buffer 0 [8; 128]) (buffer 3 [8; 128])
              [scalar_i32 1; scalar_i32 2] [scalar_i32 4; scalar_i32 5]
              (PyLeaf (semaphore 6 DMA)) (PyLeaf (semaphore 7 DMA))
              (PyLeaf (scalar_i32 8)) [8; 128] [8; 128]
              (PyCustom "NDIndexer" [8; 128]
                 [PyLeaf (scalar_i32 1); PyLeaf (scalar_i32 2)])
              (PyCustom "NDIndexer" [8; 128]
                 [PyLeaf (scalar_i32 4); PyLeaf (scalar_i32 5)]) [])
    as (send & recv & eqn & start_tree & Hstart & _ & _ & _ & _ & _ & _
        & Hsend & Hrecv & _).
  - reflexivity.
  - reflexivity.
  - reflexivity.
  - reflexivity.
  - exists send, recv, ([] ++ [eqn]).
    split; [exact Hstart|]. split; [exact Hsend | exact Hrecv].
Defined.

(** * Further properties of the module *)

(** ** Semaphore rules: when they accept *)

Lemma semaphore_signal_abstract_eval_Ok_nil (sem_aval value : AbstractValue)
    (args outs : list AbstractValue) (has_device_id : bool) :
  _semaphore_signal_abstract_eval sem_aval value args has_device_id = Ok outs ->
  outs = [].
Proof.
  unfold _semaphore_signal_abstract_eval. intros Hok.
  destruct sem_aval as [| |kind]; try discriminate Hok.
  destruct (decide (kind ≠ REGULAR)); [discriminate Hok|].
  destruct (getattr_dtype value) as [vdt|?]; simpl in Hok; [|discriminate Hok].
  destruct (decide (vdt ≠ int32)); [discriminate Hok|].
  destruct has_device_id; [|by injection Hok as <-].
  destruct args as [|device_id [|? ?]]; try discriminate Hok.
  destruct (getattr_dtype device_id) as [ddt|?]; simpl in Hok; [|discriminate Hok].
  destruct (decide (ddt ≠ int32)); [discriminate Hok|]. by injection Hok as <-.
Qed.

Lemma semaphore_wait_abstract_eval_Ok_nil (sem_aval value : AbstractValue)
    (outs : list AbstractValue) :
  _semaphore_wait_abstract_eval sem_aval value = Ok outs -> outs = [].
Proof.
  unfold _semaphore_wait_abstract_eval. intros Hok.
  destruct sem_aval as [| |kind]; try discriminate Hok.
  destruct (decide (kind ≠ REGULAR)); [discriminate Hok|].
  destruct (getattr_dtype value) as [vdt|?]; simpl in Hok; [|discriminate Hok].
  destruct (decide (vdt ≠ int32)); [discriminate Hok|]. by injection Hok as <-.
Qed.

(** [_semaphore_signal_abstract_eval] accepts exactly a [REGULAR] semaphore
    with an [int32] amount and, when [has_device_id] is set, exactly one
    further operand, of element type [int32]; it then returns no results. *)
Theorem semaphore_signal_abstract_eval_accepts_iff (sem_aval value : AbstractValue)
    (args : list AbstractValue) (has_device_id : bool) :
  (_semaphore_signal_abstract_eval sem_aval value args has_device_id = Ok []
   <-> (sem_aval = AbstractSemaphore REGULAR
        /\ getattr_dtype value = Ok int32
        /\ (has_device_id = true ->
            exists device_id, args = [device_id]
                              /\ getattr_dtype device_id = Ok int32)))
  /\ (forall outs,
        _semaphore_signal_abstract_eval sem_aval value args has_device_id = Ok outs ->
        outs = []).
Proof.
  unfold _semaphore_signal_abstract_eval.
  destruct sem_aval as [sh dt|sh dt|kind].
  1,2: split; [split; [discriminate | intros [? _]; discriminate] | discriminate].
  destruct (decide (kind ≠ REGULAR)) as [Hk|Hk].
  { split; [split; [discriminate | intros [[= ->] _]; done] | discriminate]. }
  apply dec_stable in Hk as ->.
  destruct (getattr_dtype value) as [vdt|e] eqn:Hv; simpl.
  2: { split; [split; [discriminate | intros (_ & ? & _); discriminate]
              | discriminate]. }
  destruct (decide (vdt ≠ int32)) as [Hne|Heq].
  { split; [split; [discriminate | intros (_ & [= ->] & _); done] | discriminate]. }
  apply dec_stable in Heq as ->.
  destruct has_device_id.
  - destruct args as [|device_id [|? ?]].
    + split; [split; [discriminate|] | discriminate].
      intros (_ & _ & Hdev). destruct (Hdev eq_refl) as (? & ? & _). discriminate.
    + destruct (getattr_dtype device_id) as [ddt|e] eqn:Hd; simpl.
      * destruct (decide (ddt ≠ int32)) as [Hne|Heq].
        -- split; [split; [discriminate|] | discriminate].
           intros (_ & _ & Hdev). destruct (Hdev eq_refl) as (d & [= <-] & Hdt).
           rewrite Hd in Hdt. by injection Hdt as ->.
        -- apply dec_stable in Heq as ->.
           split; [|by intros outs [= <-]].
           split; [|done]. intros _. split; [done|]. split; [done|].
           intros _. by exists device_id.
      * split; [split; [discriminate|] | discriminate].
        intros (_ & _ & Hdev). destruct (Hdev eq_refl) as (d & [= <-] & Hdt).
        rewrite Hd in Hdt. discriminate.
    + split; [split; [discriminate|] | discriminate].
      intros (_ & _ & Hdev). destruct (Hdev eq_refl) as (? & ? & _). discriminate.
  - split; [|by intros outs [= <-]].
    split; [|done]. intros _. split; [done|]. split; [done|]. discriminate.
Qed.

(** [_semaphore_wait_abstract_eval] accepts exactly a [REGULAR] semaphore
    with an [int32] amount, and then returns no results. *)
Theorem semaphore_wait_abstract_eval_accepts_iff (sem_aval value : AbstractValue) :
  (_semaphore_wait_abstract_eval sem_aval value = Ok []
   <-> (sem_aval = AbstractSemaphore REGULAR /\ getattr_dtype value = Ok int32))
  /\ (forall outs,
        _semaphore_wait_abstract_eval sem_aval value = Ok outs -> outs = []).
Proof.
  unfold _semaphore_wait_abstract_eval.
  destruct sem_aval as [sh dt|sh dt|kind].
  1,2: split; [split; [discriminate | intros [? _]; discriminate] | discriminate].
  destruct (decide (kind ≠ REGULAR)) as [Hk|Hk].
  { split; [split; [discriminate | intros [[= ->] _]; done] | discriminate]. }
  apply dec_stable in Hk as ->.
  destruct (getattr_dtype value) as [vdt|e] eqn:Hv; simpl.
  2: { split; [split; [discriminate | intros [_ ?]; discriminate] | discriminate]. }
  destruct (decide (vdt ≠ int32)) as [Hne|Heq].
  { split; [split; [discriminate | intros [_ [= ->]]; done] | discriminate]. }
  apply dec_stable in Heq as ->.
  split; [|by intros outs [= <-]]. done.
Qed.

(** The semaphore operand is checked before anything else: when it is not a
    [REGULAR] semaphore, both rules raise the [ValueError] that says so,
    whatever the other operands are. *)
Theorem semaphore_operand_checked_first (sem_aval value : AbstractValue)
    (args : list AbstractValue) (has_device_id : bool) :
  sem_aval <> AbstractSemaphore REGULAR ->
  _semaphore_signal_abstract_eval sem_aval value args has_device_id
  = Raise (mkExc ValueError
             match sem_aval with
             | AbstractSemaphore _ => Text "Must signal a REGULAR semaphore."
             | _ => FString "Cannot signal on a non-semaphore value: " sem_aval
             end)
  /\ _semaphore_wait_abstract_eval sem_aval value
     = Raise (mkExc ValueError
                match sem_aval with
                | AbstractSemaphore _ => Text "Must wait a REGULAR semaphore."
                | _ => FString "Cannot wait on a non-semaphore value: " sem_aval
                end).
Proof.
  intros Hsem.
  unfold _semaphore_signal_abstract_eval, _semaphore_wait_abstract_eval.
  destruct sem_aval as [sh dt|sh dt|kind]; [done|done|].
  rewrite !decide_True by congruence. done.
Qed.

Lemma semaphore_operand_checked_first_witness :
  _semaphore_signal_abstract_eval (AbstractSemaphore BARRIER)
    (ShapedArray [] float32) [] true
  = Raise (mkExc ValueError (Text "Must signal a REGULAR semaphore.")).
Proof.
  refine (proj1 (semaphore_operand_checked_first (AbstractSemaphore BARRIER)
                   (ShapedArray [] float32) [] true _)).
  discriminate.
Defined.

(** With [has_device_id] set, [signal] takes exactly one operand after the
    amount: any other number of them fails the unpacking with a
    [ValueError]. *)
Theorem semaphore_signal_device_id_arity (value : AbstractValue)
    (args : list AbstractValue) :
  getattr_dtype value = Ok int32 ->
  length args <> 1%nat ->
  _semaphore_signal_abstract_eval (AbstractSemaphore REGULAR) value args true
  = Raise (mkExc ValueError (Builtin (UnpackMismatch 1 (length args)))).
Proof.
  intros Hv Hlen. unfold _semaphore_signal_abstract_eval; simpl.
  rewrite Hv; simpl.
  destruct args as [|? [|? ?]]; done.
Qed.

Lemma semaphore_signal_device_id_arity_witness :
  _semaphore_signal_abstract_eval (AbstractSemaphore REGULAR)
    (ShapedArray [] int32) [] true
  = Raise (mkExc ValueError (Builtin (UnpackMismatch 1 0))).
Proof.
  apply (semaphore_signal_device_id_arity (ShapedArray [] int32) []).
  - reflexivity.
  - simpl; lia.
Defined.

(** Without [has_device_id], [signal] does not look at the operands after
    the amount, and it accepts exactly when [wait] does. *)
Theorem semaphore_signal_without_device_id (sem_aval value : AbstractValue)
    (args : list AbstractValue) :
  _semaphore_signal_abstract_eval sem_aval value args false
  = _semaphore_signal_abstract_eval sem_aval value [] false
  /\ (_semaphore_signal_abstract_eval sem_aval value args false = Ok []
      <-> _semaphore_wait_abstract_eval sem_aval value = Ok []).
Proof.
  split.
  - unfold _semaphore_signal_abstract_eval.
    destruct sem_aval as [| |kind]; try done.
  - unfold _semaphore_signal_abstract_eval, _semaphore_wait_abstract_eval.
    destruct sem_aval as [| |kind]; [done|done|].
    destruct (decide (kind ≠ REGULAR)); [done|].
    destruct (getattr_dtype value) as [vdt|e]; simpl; [|done].
    destruct (decide (vdt ≠ int32)); done.
Qed.

(** ** Semaphore wrappers *)

(** [semaphore_signal] does not convert [device_id]: once the amount is
    converted to an [int32] array, on a [REGULAR] semaphore an [int32]
    device id is emitted as third operand with [has_device_id] set, and a
    device id of another element type is rejected with no [semaphore_signal]
    emitted. *)
Theorem semaphore_signal_with_device_id {Amount : Type}
    (asarray : Amount -> DType -> Tracing Tracer) (sem device_id inc : Tracer)
    (x : Amount) (st st1 : TraceState) :
  aval sem = AbstractSemaphore REGULAR ->
  asarray x int32 st = (Ok inc, st1) ->
  getattr_dtype (aval inc) = Ok int32 ->
  (getattr_dtype (aval device_id) = Ok int32 ->
   semaphore_signal asarray sem x (Some device_id) st
   = (Ok tt,
      st1 ++ [mkEqn semaphore_signal_p [sem; inc; device_id]
                (semaphore_signal_params true) [] no_effects]))
  /\ (not_int32 (aval device_id) ->
      semaphore_signal asarray sem x (Some device_id) st
      = (Raise (mkExc ValueError (Text "`device_id` must be an int32 value.")),
         st1)).
Proof.
  intros Hsem Hconv Hdt. split.
  - intros Hd. unfold semaphore_signal, bind, mbind, Tracing_bind.
    rewrite Hconv; simpl. rewrite Hsem; simpl. rewrite Hdt; simpl.
    rewrite Hd; simpl. done.
  - intros (dt & Hd & Hne).
    unfold semaphore_signal, bind, mbind, Tracing_bind.
    rewrite Hconv; simpl. rewrite Hsem; simpl. rewrite Hdt; simpl.
    rewrite Hd; simpl. rewrite decide_True by done. done.
Qed.

Lemma semaphore_signal_with_device_id_witness :
  semaphore_signal sample_asarray (semaphore 0 REGULAR) amount_1
    (Some (mkTracer 2 (ShapedArray [] int64))) []
  = (Raise (mkExc ValueError (Text "`device_id` must be an int32 value.")), []).
Proof.
  refine (proj2 (semaphore_signal_with_device_id sample_asarray
                   (semaphore 0 REGULAR) (mkTracer 2 (ShapedArray [] int64))
                   (scalar_i32 1) amount_1 [] [] _ _ _) _).
  - reflexivity.
  - reflexivity.
  - reflexivity.
  - exists int64. split; [reflexivity | discriminate].
Defined.

(** Once the amount is converted to an [int32] array, [semaphore_wait], and
    [semaphore_signal] without a device id, succeed exactly on a [REGULAR]
    semaphore; when they fail then, the exception is a [ValueError] and the
    trace state is as the conversion left it. *)
Theorem semaphore_wrappers_succeed_iff {Amount : Type}
    (asarray : Amount -> DType -> Tracing Tracer) (sem inc : Tracer)
    (x : Amount) (st st1 : TraceState) :
  asarray x int32 st = (Ok inc, st1) ->
  getattr_dtype (aval inc) = Ok int32 ->
  (fst (semaphore_wait asarray sem x st) = Ok tt
   <-> aval sem = AbstractSemaphore REGULAR)
  /\ (fst (semaphore_signal asarray sem x None st) = Ok tt
      <-> aval sem = AbstractSemaphore REGULAR)
  /\ (forall e st',
        semaphore_wait asarray sem x st = (Raise e, st') \/
        semaphore_signal asarray sem x None st = (Raise e, st') ->
        exc_type e = ValueError /\ st' = st1).
Proof.
  intros Hconv Hdt.
  unfold semaphore_wait, semaphore_signal, bind, mbind, Tracing_bind.
  rewrite Hconv; simpl.
  unfold _semaphore_wait_abstract_eval, _semaphore_signal_abstract_eval.
  destruct (aval sem) as [sh dt|sh dt|kind]; simpl.
  1,2: split; [split; discriminate|]; split; [split; discriminate|];
       intros e st' [[= <- <-]|[= <- <-]]; done.
  destruct (decide (kind ≠ REGULAR)) as [Hk|Hk]; simpl.
  - split; [split; [discriminate | by intros [= ->]]|].
    split; [split; [discriminate | by intros [= ->]]|].
    intros e st' [[= <- <-]|[= <- <-]]; done.
  - apply dec_stable in Hk as ->. rewrite Hdt; simpl.
    split; [done|]. split; [done|]. intros e st' [?|?]; discriminate.
Qed.

Lemma semaphore_wrappers_succeed_iff_witness :
  fst (semaphore_wait sample_asarray (semaphore 0 BARRIER) amount_1 []) <> Ok tt.
Proof.
  destruct (semaphore_wrappers_succeed_iff sample_asarray (semaphore 0 BARRIER)
              (scalar_i32 1) amount_1 [] []) as ([Hwait _] & _ & _).
  - reflexivity.
  - reflexivity.
  - intros Hok. specialize (Hwait Hok). discriminate Hwait.
Defined.

(** ** [repeat]: axes, composition, size *)

Lemma py_index_Ok_inv (n : nat) (i : Z) (k : nat) :
  py_index n i = Ok k ->
  (k < n)%nat /\ - Z.of_nat n <= i < Z.of_nat n
  /\ Z.of_nat k = if i <? 0 then i + Z.of_nat n else i.
Proof.
  unfold py_index. intros Hk.
  destruct (i <? 0) eqn:Hneg;
    [apply Z.ltb_lt in Hneg | apply Z.ltb_ge in Hneg];
    match type of Hk with
    | (if ?c then _ else _) = _ => destruct c eqn:Hc; [|discriminate Hk]
    end;
    apply andb_true_iff in Hc as [Hlo Hhi];
    apply Z.leb_le in Hlo; apply Z.ltb_lt in Hhi;
    injection Hk as <-; lia.
Qed.

Lemma repeat_abstract_eval_Ok_inv (x y : AbstractValue) (repeats axis : Z) :
  _repeat_abstract_eval x repeats axis = Ok y ->
  exists (shape : list Z) (dtype : DType) (i : nat),
    getattr_shape x = Ok shape /\ getattr_dtype x = Ok dtype
    /\ py_index (length shape) axis = Ok i /\ (i < length shape)%nat
    /\ y = ShapedArray (<[i := (shape !!! i) * repeats]> shape) dtype.
Proof.
  unfold _repeat_abstract_eval. intros Hy.
  destruct (getattr_shape x) as [shape|?] eqn:Hs; simpl in Hy; [|discriminate].
  destruct (py_index (length shape) axis) as [i|?] eqn:Hi; simpl in Hy;
    [|discriminate].
  destruct (getattr_dtype x) as [dtype|?] eqn:Hd; simpl in Hy; [|discriminate].
  injection Hy as <-. exists shape, dtype, i.
  repeat split; try done. by apply py_index_Ok_inv in Hi as [? _].
Qed.

Lemma repeat_abstract_eval_valid_axis (shape : list Z) (dtype : DType)
    (repeats axis : Z) :
  - Z.of_nat (length shape) <= axis < Z.of_nat (length shape) ->
  exists y, _repeat_abstract_eval (ShapedArray shape dtype) repeats axis = Ok y.
Proof.
  intros Haxis. unfold _repeat_abstract_eval; simpl.
  destruct (Z.lt_ge_cases axis 0) as [Hneg|Hpos].
  - rewrite py_index_from_end by lia. simpl. by eexists.
  - rewrite py_index_in_range by lia. simpl. by eexists.
Qed.

(** On a shaped array the rule returns exactly when [axis] names a
    dimension, from the front or (negative) from the back; on a rank-0 array
    it never does. *)
Theorem repeat_abstract_eval_succeeds_iff (shape : list Z) (dtype : DType)
    (repeats axis : Z) :
  (exists y, _repeat_abstract_eval (ShapedArray shape dtype) repeats axis = Ok y)
  <-> - Z.of_nat (length shape) <= axis < Z.of_nat (length shape).
Proof.
  split.
  - intros [y Hy]. apply repeat_abstract_eval_Ok_inv in Hy
      as (sh & dt & i & [= <-] & _ & Hi & _).
    by apply py_index_Ok_inv in Hi as (_ & ? & _).
  - apply repeat_abstract_eval_valid_axis.
Qed.

(** A negative [axis] is the dimension [axis + rank]. *)
Theorem repeat_abstract_eval_negative_axis (x : AbstractValue) (shape : list Z)
    (repeats axis : Z) :
  getattr_shape x = Ok shape ->
  - Z.of_nat (length shape) <= axis < 0 ->
  _repeat_abstract_eval x repeats axis
  = _repeat_abstract_eval x repeats (axis + Z.of_nat (length shape)).
Proof.
  intros Hs Haxis. unfold _repeat_abstract_eval. rewrite Hs; simpl.
  rewrite py_index_from_end by lia. by rewrite py_index_in_range by lia.
Qed.

Lemma repeat_abstract_eval_negative_axis_witness :
  _repeat_abstract_eval (ShapedArray [2; 3; 7] int8) 5 (-3)
  = _repeat_abstract_eval (ShapedArray [2; 3; 7] int8) 5 (-3 + 3).
Proof.
  apply (repeat_abstract_eval_negative_axis (ShapedArray [2; 3; 7] int8)
           [2; 3; 7] 5 (-3)).
  - reflexivity.
  - simpl; lia.
Defined.

(** Repeating along one axis twice is repeating once by the product. *)
Theorem repeat_abstract_eval_compose (x y : AbstractValue) (r1 r2 axis : Z) :
  _repeat_abstract_eval x r1 axis = Ok y ->
  _repeat_abstract_eval y r2 axis = _repeat_abstract_eval x (r1 * r2) axis.
Proof.
  intros Hy. apply repeat_abstract_eval_Ok_inv in Hy
    as (shape & dtype & i & Hs & Hd & Hi & Hlt & ->).
  unfold _repeat_abstract_eval; simpl. rewrite Hs, Hd; simpl.
  rewrite length_insert, Hi; simpl.
  rewrite list_lookup_total_insert_eq by done.
  rewrite list_insert_insert_eq. by rewrite Z.mul_assoc.
Qed.

Lemma repeat_abstract_eval_compose_witness :
  _repeat_abstract_eval (ShapedArray [4; 15] float32) 2 1
  = _repeat_abstract_eval (ShapedArray [4; 5] float32) (3 * 2) 1.
Proof.
  apply (repeat_abstract_eval_compose (ShapedArray [4; 5] float32)
           (ShapedArray [4; 15] float32) 3 2 1).
  reflexivity.
Defined.

(** Repeats along two different axes can be done in either order. *)
Theorem repeat_abstract_eval_commute (shape : list Z) (dtype : DType)
    (r1 r2 a b : Z) :
  0 <= a < Z.of_nat (length shape) ->
  0 <= b < Z.of_nat (length shape) ->
  a <> b ->
  (y ← _repeat_abstract_eval (ShapedArray shape dtype) r1 a;
   _repeat_abstract_eval y r2 b)
  = (y ← _repeat_abstract_eval (ShapedArray shape dtype) r2 b;
     _repeat_abstract_eval y r1 a).
Proof.
  intros Ha Hb Hab. unfold _repeat_abstract_eval; simpl.
  rewrite !py_index_in_range by lia; simpl.
  rewrite !length_insert, !py_index_in_range by lia; simpl.
  assert (Hne : Z.to_nat a <> Z.to_nat b) by lia.
  rewrite !list_lookup_total_insert_ne by done.
  by rewrite list_insert_insert_ne by done.
Qed.

Lemma repeat_abstract_eval_commute_witness :
  (y ← _repeat_abstract_eval (ShapedArray [4; 5] float32) 3 0;
   _repeat_abstract_eval y 2 1)
  = (y ← _repeat_abstract_eval (ShapedArray [4; 5] float32) 2 1;
     _repeat_abstract_eval y 3 0).
Proof.
  apply (repeat_abstract_eval_commute [4; 5] float32 3 2 0 1);
    simpl; lia.
Defined.

(** Repeating once changes nothing. *)
Theorem repeat_abstract_eval_once (shape : list Z) (dtype : DType) (axis : Z) :
  - Z.of_nat (length shape) <= axis < Z.of_nat (length shape) ->
  _repeat_abstract_eval (ShapedArray shape dtype) 1 axis
  = Ok (ShapedArray shape dtype).
Proof.
  intros Haxis.
  destruct (repeat_abstract_eval_valid_axis shape dtype 1 axis Haxis) as [y Hy].
  rewrite Hy. apply repeat_abstract_eval_Ok_inv in Hy
    as (sh & dt & i & [= <-] & [= <-] & _ & Hlt & ->).
  rewrite Z.mul_1_r, list_insert_id; [done|].
  by apply list_lookup_lookup_total_lt.
Qed.

Lemma repeat_abstract_eval_once_witness :
  _repeat_abstract_eval (ShapedArray [4; 5] uint8) 1 (-2)
  = Ok (ShapedArray [4; 5] uint8).
Proof. apply (repeat_abstract_eval_once [4; 5] uint8 (-2)). simpl; lia. Defined.

Lemma num_elements_insert (shape : list Z) (i : nat) (d repeats : Z) :
  shape !! i = Some d ->
  num_elements (<[i := d * repeats]> shape) = repeats * num_elements shape.
Proof.
  revert i. induction shape as [|d' shape IH]; intros [|i] Hd; simpl in *;
    try discriminate.
  - injection Hd as ->. lia.
  - rewrite (IH i Hd). lia.
Qed.

(** The result has [repeats] times as many elements as the input. *)
Theorem repeat_abstract_eval_num_elements (x y : AbstractValue) (repeats axis : Z) :
  _repeat_abstract_eval x repeats axis = Ok y ->
  exists shape shape',
    getattr_shape x = Ok shape /\ getattr_shape y = Ok shape'
    /\ length shape' = length shape
    /\ num_elements shape' = repeats * num_elements shape.
Proof.
  intros Hy. apply repeat_abstract_eval_Ok_inv in Hy
    as (shape & dtype & i & Hs & _ & _ & Hlt & ->).
  exists shape, (<[i := (shape !!! i) * repeats]> shape).
  split; [done|]. split; [done|]. split; [by rewrite length_insert|].
  apply num_elements_insert. by apply list_lookup_lookup_total_lt.
Qed.

Lemma repeat_abstract_eval_num_elements_witness :
  exists shape shape',
    getattr_shape (AbstractRef [2; 3; 7] float32) = Ok shape
    /\ getattr_shape (ShapedArray [2; 12; 7] float32) = Ok shape'
    /\ length shape' = length shape
    /\ num_elements shape' = 4 * num_elements shape.
Proof.
  apply (repeat_abstract_eval_num_elements (AbstractRef [2; 3; 7] float32)
           (ShapedArray [2; 12; 7] float32) 4 1).
  reflexivity.
Defined.

(** ** [run_scoped]: what is emitted, and when nothing is *)

Lemma run_scoped_emits_witness :
  run_scoped aval_of_spec capturing_trace tt
    [PyLeaf (AbstractSemaphore REGULAR)] [] []
  = (Ok tt,
     [mkEqn run_scoped_p [buffer 0 [8]] (run_scoped_params scoped_jaxpr) []
        (snd (_run_scoped_abstract_eval (map aval [buffer 0 [8]]) scoped_jaxpr))]).
Proof.
  apply (run_scoped_emits aval_of_spec capturing_trace tt
           [PyLeaf (AbstractSemaphore REGULAR)] [] [AbstractSemaphore REGULAR]
           scoped_jaxpr [buffer 0 [8]] []).
  - reflexivity.
  - reflexivity.
Defined.

(** When a type specification cannot give its abstract value, [run_scoped]
    raises what [get_aval] raised, the body is not traced (the outcome does
    not depend on the tracing engine) and nothing is emitted. *)
Theorem run_scoped_get_aval_failure {Fun TypeSpec : Type}
    (get_aval : TypeSpec -> Result AbstractValue)
    (trace_to_jaxpr_dynamic :
       Fun -> PyTreeDef -> list AbstractValue -> Result (Jaxpr * list Tracer))
    (f : Fun) (types : list (PyTree TypeSpec))
    (kw_types : list (string * PyTree TypeSpec)) (e : Exception)
    (st : TraceState) :
  mapR get_aval
    (fst (tree_flatten (PyTuple [PyTuple types; PyDict kw_types]))) = Raise e ->
  run_scoped get_aval trace_to_jaxpr_dynamic f types kw_types st = (Raise e, st).
Proof.
  intros Havals. unfold run_scoped, tree_flatten in *; simpl in *.
  unfold mbind, Tracing_bind, lift. by rewrite Havals.
Qed.

Lemma run_scoped_get_aval_failure_witness :
  run_scoped aval_of_resource capturing_trace tt
    [PyLeaf (AbstractSemaphore REGULAR); PyLeaf (ShapedArray [8] float32)] [] []
  = (Raise (mkExc AttributeError (Builtin (MissingAttribute "get_aval"))), []).
Proof.
  apply (run_scoped_get_aval_failure aval_of_resource capturing_trace tt
           [PyLeaf (AbstractSemaphore REGULAR); PyLeaf (ShapedArray [8] float32)]
           [] _ []).
  reflexivity.
Defined.

(** The rule never exposes an effect the sub-program did not declare, never
    more effects than it declared, and does not look at its operands. *)
Theorem run_scoped_never_adds_effects (args args' : list AbstractValue)
    (jaxpr : Jaxpr) :
  snd (_run_scoped_abstract_eval args jaxpr) ⊆ effects jaxpr
  /\ (size (snd (_run_scoped_abstract_eval args jaxpr)) <= size (effects jaxpr))%nat
  /\ _run_scoped_abstract_eval args jaxpr = _run_scoped_abstract_eval args' jaxpr.
Proof.
  assert (Hsub : snd (_run_scoped_abstract_eval args jaxpr) ⊆ effects jaxpr).
  { intros eff Heff. by apply elem_of_nonlocal_effects in Heff as [? _]. }
  split; [done|]. split; [by apply subseteq_size|done].
Qed.

(** The exposed set is the whole declared set exactly when every declared
    input-effect refers to a captured constant. *)
Theorem run_scoped_exposes_all_iff (args : list AbstractValue) (jaxpr : Jaxpr) :
  snd (_run_scoped_abstract_eval args jaxpr) = effects jaxpr
  <-> (forall kind i,
         JaxprInputEffect kind i ∈ effects jaxpr ->
         i < Z.of_nat (length (constvars jaxpr))).
Proof.
  split.
  - intros Heq kind i Hin. rewrite <- Heq in Hin.
    apply elem_of_nonlocal_effects in Hin as [_ Hloc]. simpl in Hloc.
    apply bool_decide_eq_false in Hloc. lia.
  - intros Hconst. apply set_eq. intros eff.
    rewrite elem_of_nonlocal_effects. split; [by intros [? _]|].
    intros Hin. split; [done|]. destruct eff as [kind i|name]; simpl; [|done].
    apply bool_decide_eq_false. specialize (Hconst kind i Hin). lia.
Qed.

(** ** Nested [trace] scopes *)

(** Two nested scopes bracket the region properly: both starts come before
    what the region emits, and when it returns the inner stop is followed by
    the outer stop; when it raises, neither stop is emitted. *)
Theorem trace_scopes_nest {A : Type} (message1 message2 : string)
    (level1 level2 : Z) (body : Tracing A) (st : TraceState) :
  with_ (trace message1 level1) (with_ (trace message2 level2) body) st
  = match body (st ++ [trace_start_eqn message1 level1;
                       trace_start_eqn message2 level2]) with
    | (Ok a, st') => (Ok a, st' ++ [trace_stop_eqn; trace_stop_eqn])
    | (Raise e, st') => (Raise e, st')
    end.
Proof.
  unfold with_, trace, bind, mbind, Tracing_bind; simpl.
  unfold trace_start_eqn, trace_stop_eqn, _trace_start_abstract_eval,
    _trace_stop_abstract_eval.
  rewrite <- app_assoc; simpl.
  destruct (body _) as [[a|e] st']; [|done].
  by rewrite <- app_assoc.
Qed.

(** ** DMA: futures and failures *)

(** [wait] has no guard against a second call: waiting twice on a future
    never raises and emits the same [dma_wait] twice. *)
Theorem wait_twice_emits_twice (future : DMAFuture) (st : TraceState) :
  (_ ← wait future; wait future) st
  = (Ok tt, st ++ [dma_wait_eqn future; dma_wait_eqn future])
  /\ count_emitted dma_wait_p (snd ((_ ← wait future; wait future) st))
     = S (S (count_emitted dma_wait_p st)).
Proof.
  assert (Hrun : (_ ← wait future; wait future) st
                 = (Ok tt, st ++ [dma_wait_eqn future; dma_wait_eqn future])).
  { unfold wait, bind, mbind, Tracing_bind; simpl.
    by rewrite <- app_assoc. }
  split; [done|]. rewrite Hrun; simpl.
  change (st ++ [dma_wait_eqn future; dma_wait_eqn future])
    with (st ++ [dma_wait_eqn future] ++ [dma_wait_eqn future]).
  rewrite app_assoc. by rewrite !count_emitted_snoc.
Qed.

Section DMAFailures.
Context {Indices : Type}.
Variable from_indices_shape : Indices -> list Z -> Result (PyTree Tracer).

(** A [dma_start] that returns has built both region descriptors; the
    future and the emitted operation are determined by them. *)
Lemma dma_start_Ok_inv (src_ref dst_ref : Tracer) (src_indices dst_indices : Indices)
    (sem : PyTree Tracer) (future : DMAFuture) (st st' : TraceState) :
  dma_start from_indices_shape src_ref src_indices dst_ref dst_indices sem st
  = (Ok future, st') ->
  exists src_shape dst_shape src_indexer dst_indexer,
    getattr_shape (aval src_ref) = Ok src_shape
    /\ from_indices_shape src_indices src_shape = Ok src_indexer
    /\ getattr_shape (aval dst_ref) = Ok dst_shape
    /\ from_indices_shape dst_indices dst_shape = Ok dst_indexer
    /\ future = mkDMAFuture
                  (tree_leaves (PyTuple [sem; PyLeaf dst_ref; dst_indexer]))
                  (tree_structure (PyTuple [sem; PyLeaf dst_ref; dst_indexer]))
    /\ st' = st ++ [dma_start_eqn
                      (PyTuple [PyLeaf src_ref; src_indexer; PyLeaf dst_ref;
                                dst_indexer; sem; PyNone; PyNone])].
Proof.
  unfold dma_start, mbind, Tracing_bind, lift. intros Hrun.
  destruct (getattr_shape (aval src_ref)) as [src_shape|?] eqn:Hs;
    [|discriminate].
  destruct (from_indices_shape src_indices src_shape) as [src_indexer|?] eqn:Hsi;
    [|discriminate].
  destruct (getattr_shape (aval dst_ref)) as [dst_shape|?] eqn:Hd;
    [|discriminate].
  destruct (from_indices_shape dst_indices dst_shape) as [dst_indexer|?] eqn:Hdi;
    [|discriminate].
  injection Hrun as <- <-.
  by exists src_shape, dst_shape, src_indexer, dst_indexer.
Qed.
End DMAFailures.

(** When the source region descriptor cannot be built, [dma_start] and
    [remote_dma_start] raise what its constructor raised, whatever the
    destination is, and emit nothing. *)
Theorem dma_start_source_failure {Indices : Type}
    (from_indices_shape : Indices -> list Z -> Result (PyTree Tracer))
    (src_ref dst_ref : Tracer) (src_indices dst_indices : Indices)
    (sem src_sem dst_sem device_id : PyTree Tracer) (src_shape : list Z)
    (e : Exception) (st : TraceState) :
  getattr_shape (aval src_ref) = Ok src_shape ->
  from_indices_shape src_indices src_shape = Raise e ->
  dma_start from_indices_shape src_ref src_indices dst_ref dst_indices sem st
  = (Raise e, st)
  /\ remote_dma_start from_indices_shape src_ref src_indices dst_ref dst_indices
       src_sem dst_sem device_id st = (Raise e, st).
Proof.
  intros Hs Hsi. unfold dma_start, remote_dma_start, mbind, Tracing_bind, lift.
  by rewrite Hs, Hsi.
Qed.

Lemma dma_start_source_failure_witness :
  dma_start one_index_per_dim (buffer 0 [8; 128]) [scalar_i32 1]
    (buffer 2 [8; 128]) [] (PyLeaf (semaphore 3 DMA)) []
  = (Raise (mkExc ValueError
              (Text "`indices` must be the same length as `Ref` shape.")), []).
Proof.
  refine (proj1 (dma_start_source_failure one_index_per_dim
                   (buffer 0 [8; 128]) (buffer 2 [8; 128]) [scalar_i32 1] []
                   (PyLeaf (semaphore 3 DMA)) PyNone PyNone PyNone [8; 128]
                   _ [] _ _)).
  - reflexivity.
  - reflexivity.
Defined.

(** When the source region descriptor is built and the destination one
    cannot be, both functions raise what its constructor raised and emit
    nothing. *)
Theorem dma_start_destination_failure {Indices : Type}
    (from_indices_shape : Indices -> list Z -> Result (PyTree Tracer))
    (src_ref dst_ref : Tracer) (src_indices dst_indices : Indices)
    (sem src_sem dst_sem device_id : PyTree Tracer)
    (src_shape dst_shape : list Z) (src_indexer : PyTree Tracer)
    (e : Exception) (st : TraceState) :
  getattr_shape (aval src_ref) = Ok src_shape ->
  from_indices_shape src_indices src_shape = Ok src_indexer ->
  getattr_shape (aval dst_ref) = Ok dst_shape ->
  from_indices_shape dst_indices dst_shape = Raise e ->
  dma_start from_indices_shape src_ref src_indices dst_ref dst_indices sem st
  = (Raise e, st)
  /\ remote_dma_start from_indices_shape src_ref src_indices dst_ref dst_indices
       src_sem dst_sem device_id st = (Raise e, st).
Proof.
  intros Hs Hsi Hd Hdi.
  unfold dma_start, remote_dma_start, mbind, Tracing_bind, lift.
  by rewrite Hs, Hsi, Hd, Hdi.
Qed.

Lemma dma_start_destination_failure_witness :
  remote_dma_start one_index_per_dim (buffer 0 [8; 128]) [scalar_i32 1; scalar_i32 2]
    (buffer 3 [8; 128]) [scalar_i32 4]
    (PyLeaf (semaphore 5 DMA)) (PyLeaf (semaphore 6 DMA)) (PyLeaf (scalar_i32 7)) []
  = (Raise (mkExc ValueError
              (Text "`indices` must be the same length as `Ref` shape.")), []).
Proof.
  refine (proj2 (dma_start_destination_failure one_index_per_dim
                   (buffer 0 [8; 128]) (buffer 3 [8; 128])
                   [scalar_i32 1; scalar_i32 2] [scalar_i32 4] PyNone
                   (PyLeaf (semaphore 5 DMA)) (PyLeaf (semaphore 6 DMA))
                   (PyLeaf (scalar_i32 7)) [8; 128] [8; 128]
                   (PyCustom "NDIndexer" [8; 128]
                      [PyLeaf (scalar_i32 1); PyLeaf (scalar_i32 2)])
                   _ [] _ _ _ _)).
  - reflexivity.
  - reflexivity.
  - reflexivity.
  - reflexivity.
Defined.

(** [dma_start] is [remote_dma_start] without a source semaphore and
    without a device: the same operation is emitted (or the same exception
    raised), and the future returned is the receive future. *)
Theorem dma_start_is_remote_without_device {Indices : Type}
    (from_indices_shape : Indices -> list Z -> Result (PyTree Tracer))
    (src_ref dst_ref : Tracer) (src_indices dst_indices : Indices)
    (sem : PyTree Tracer) (st : TraceState) :
  dma_start from_indices_shape src_ref src_indices dst_ref dst_indices sem st
  = match remote_dma_start from_indices_shape src_ref src_indices dst_ref
            dst_indices PyNone sem PyNone st with
    | (Ok (send, recv), st') => (Ok recv, st')
    | (Raise e, st') => (Raise e, st')
    end.
Proof.
  unfold dma_start, remote_dma_start, mbind, Tracing_bind, lift.
  destruct (getattr_shape (aval src_ref)) as [src_shape|?]; [|done].
  destruct (from_indices_shape src_indices src_shape) as [src_indexer|?]; [|done].
  destruct (getattr_shape (aval dst_ref)) as [dst_shape|?]; [|done].
  destruct (from_indices_shape dst_indices dst_shape) as [dst_indexer|?]; done.
Qed.

(** When both region descriptors are built, the operation [dma_start]
    emits has as operands the source reference, the leaves of the source
    region, the destination reference, the leaves of the destination region
    and the leaves of the semaphore (the two [None] placeholders add none);
    they reconstruct to the seven-place tuple the function built, and the
    operands the future stores are among them. *)
Theorem dma_start_emitted_operands {Indices : Type}
    (from_indices_shape : Indices -> list Z -> Result (PyTree Tracer))
    (src_ref dst_ref : Tracer) (src_indices dst_indices : Indices)
    (sem : PyTree Tracer) (src_shape dst_shape : list Z)
    (src_indexer dst_indexer : PyTree Tracer) (st : TraceState) :
  getattr_shape (aval src_ref) = Ok src_shape ->
  from_indices_shape src_indices src_shape = Ok src_indexer ->
  getattr_shape (aval dst_ref) = Ok dst_shape ->
  from_indices_shape dst_indices dst_shape = Ok dst_indexer ->
  exists (future : DMAFuture) (eqn : JaxprEqn) (start_tree : PyTreeDef),
    dma_start from_indices_shape src_ref src_indices dst_ref dst_indices sem st
    = (Ok future, st ++ [eqn])
    /\ primitive eqn = dma_start_p
    /\ params eqn = tree_params start_tree
    /\ outvars eqn = []
    /\ invars eqn
       = src_ref :: tree_leaves src_indexer
         ++ dst_ref :: tree_leaves dst_indexer ++ tree_leaves sem
    /\ tree_unflatten start_tree (invars eqn)
       = Ok (PyTuple [PyLeaf src_ref; src_indexer; PyLeaf dst_ref; dst_indexer;
                      sem; PyNone; PyNone])
    /\ flat_args future = tree_leaves sem ++ dst_ref :: tree_leaves dst_indexer
    /\ (forall t, t ∈ flat_args future -> t ∈ invars eqn).
Proof.
  intros Hs Hsi Hd Hdi. eexists _, _, _. split.
  - by apply (dma_start_emits from_indices_shape) with (1 := Hs) (3 := Hd).
  - split; [done|]. split; [done|]. split; [done|].
    split; [|split; [|split]].
    + simpl. by rewrite ?app_nil_r.
    + apply (tree_unflatten_flatten
               (PyTuple [PyLeaf src_ref; src_indexer; PyLeaf dst_ref; dst_indexer;
                         sem; PyNone; PyNone])).
    + simpl. by rewrite ?app_nil_r.
    + simpl. rewrite !app_nil_r. intros t.
      rewrite !elem_of_app, !elem_of_cons, !elem_of_app, !elem_of_cons,
        !elem_of_app.
      tauto.
Qed.

Lemma dma_start_emitted_operands_witness :
  exists (future : DMAFuture) (eqn : JaxprEqn),
    dma_start one_index_per_dim (buffer 0 [8]) [scalar_i32 1]
      (buffer 2 [8]) [scalar_i32 3] (PyLeaf (semaphore 4 DMA)) []
    = (Ok future, [] ++ [eqn])
    /\ invars eqn
       = [buffer 0 [8]; scalar_i32 1; buffer 2 [8]; scalar_i32 3; semaphore 4 DMA]
    /\ flat_args future = [semaphore 4 DMA; buffer 2 [8]; scalar_i32 3].
Proof.
  destruct (dma_start_emitted_operands one_index_per_dim
              (buffer 0 [8]) (buffer 2 [8]) [scalar_i32 1] [scalar_i32 3]
              (PyLeaf (semaphore 4 DMA)) [8] [8]
              (PyCustom "NDIndexer" [8] [PyLeaf (scalar_i32 1)])
              (PyCustom "NDIndexer" [8] [PyLeaf (scalar_i32 3)]) [])
    as (future & eqn & start_tree & Hrun & _ & _ & _ & Hops & _ & Hfut & _).
  - reflexivity.
  - reflexivity.
  - reflexivity.
  - reflexivity.
  - exists future, eqn. split; [exact Hrun|]. split; [exact Hops | exact Hfut].
Defined.

(** The future does not record the source: two transfers into the same
    destination region with the same semaphore return equal futures. *)
Theorem dma_future_forgets_source {Indices : Type}
    (from_indices_shape : Indices -> list Z -> Result (PyTree Tracer))
    (src_ref1 src_ref2 dst_ref : Tracer)
    (src_indices1 src_indices2 dst_indices : Indices) (sem : PyTree Tracer)
    (future1 future2 : DMAFuture) (st1 st1' st2 st2' : TraceState) :
  dma_start from_indices_shape src_ref1 src_indices1 dst_ref dst_indices sem st1
  = (Ok future1, st1') ->
  dma_start from_indices_shape src_ref2 src_indices2 dst_ref dst_indices sem st2
  = (Ok future2, st2') ->
  future1 = future2.
Proof.
  intros Hrun1 Hrun2.
  apply dma_start_Ok_inv in Hrun1
    as (? & dst_shape1 & ? & dst_indexer1 & _ & _ & Hd1 & Hdi1 & -> & _).
  apply dma_start_Ok_inv in Hrun2
    as (? & dst_shape2 & ? & dst_indexer2 & _ & _ & Hd2 & Hdi2 & -> & _).
  rewrite Hd1 in Hd2. injection Hd2 as <-.
  rewrite Hdi1 in Hdi2. by injection Hdi2 as <-.
Qed.

Lemma dma_future_forgets_source_witness :
  exists (future1 future2 : DMAFuture) (st1 st2 : TraceState),
    dma_start one_index_per_dim (buffer 0 [8]) [scalar_i32 1]
      (buffer 2 [8]) [scalar_i32 3] (PyLeaf (semaphore 4 DMA)) []
    = (Ok future1, st1)
    /\ dma_start one_index_per_dim (buffer 7 [8]) [scalar_i32 9]
         (buffer 2 [8]) [scalar_i32 3] (PyLeaf (semaphore 4 DMA)) []
       = (Ok future2, st2)
    /\ future1 = future2.
Proof.
  eexists _, _, _, _. split; [vm_compute; reflexivity|].
  split; [vm_compute; reflexivity|].
  eapply (dma_future_forgets_source one_index_per_dim
            (buffer 0 [8]) (buffer 7 [8]) (buffer 2 [8])
            [scalar_i32 1] [scalar_i32 9] [scalar_i32 3]
            (PyLeaf (semaphore 4 DMA)) _ _ [] _ [] _).
  - vm_compute; reflexivity.
  - vm_compute; reflexivity.
Defined.

Section RemoteDMA.
Context {Indices : Type}.
Variable from_indices_shape : Indices -> list Z -> Result (PyTree Tracer).

Lemma remote_dma_start_Ok_inv (src_ref dst_ref : Tracer)
    (src_indices dst_indices : Indices)
    (src_sem dst_sem device_id : PyTree Tracer) (send recv : DMAFuture)
    (st st' : TraceState) :
  remote_dma_start from_indices_shape src_ref src_indices dst_ref dst_indices
    src_sem dst_sem device_id st = (Ok (send, recv), st') ->
  exists src_indexer dst_indexer,
    send = mkDMAFuture
             (tree_leaves (PyTuple [src_sem; PyLeaf src_ref; src_indexer]))
             (tree_structure (PyTuple [src_sem; PyLeaf src_ref; src_indexer]))
    /\ recv = mkDMAFuture
                (tree_leaves (PyTuple [dst_sem; PyLeaf dst_ref; dst_indexer]))
                (tree_structure (PyTuple [dst_sem; PyLeaf dst_ref; dst_indexer]))
    /\ st' = st ++ [dma_start_eqn
                      (PyTuple [PyLeaf src_ref; src_indexer; PyLeaf dst_ref;
                                dst_indexer; dst_sem; src_sem; device_id])].
Proof.
  unfold remote_dma_start, mbind, Tracing_bind, lift. intros Hrun.
  destruct (getattr_shape (aval src_ref)) as [src_shape|?]; [|discriminate].
  destruct (from_indices_shape src_indices src_shape) as [src_indexer|?];
    [|discriminate].
  destruct (getattr_shape (aval dst_ref)) as [dst_shape|?]; [|discriminate].
  destruct (from_indices_shape dst_indices dst_shape) as [dst_indexer|?];
    [|discriminate].
  injection Hrun as <- <- <-. by exists src_indexer, dst_indexer.
Qed.
End RemoteDMA.

(** The one operation [remote_dma_start] emits carries every operand either
    future stores, and nothing else but the leaves of [device_id]. *)
Theorem remote_dma_start_operands_cover_futures {Indices : Type}
    (from_indices_shape : Indices -> list Z -> Result (PyTree Tracer))
    (src_ref dst_ref : Tracer) (src_indices dst_indices : Indices)
    (src_sem dst_sem device_id : PyTree Tracer) (send recv : DMAFuture)
    (st st' : TraceState) :
  remote_dma_start from_indices_shape src_ref src_indices dst_ref dst_indices
    src_sem dst_sem device_id st = (Ok (send, recv), st') ->
  exists eqn : JaxprEqn,
    st' = st ++ [eqn]
    /\ (forall t, t ∈ invars eqn <->
          (t ∈ flat_args send \/ t ∈ flat_args recv \/ t ∈ tree_leaves device_id))
    /\ length (invars eqn)
       = (length (flat_args send) + length (flat_args recv)
          + length (tree_leaves device_id))%nat.
Proof.
  intros Hrun. apply remote_dma_start_Ok_inv in Hrun
    as (src_indexer & dst_indexer & -> & -> & ->).
  eexists. split; [done|]. simpl. rewrite !app_nil_r. split.
  - intros t.
    rewrite !elem_of_app, !elem_of_cons, !elem_of_app, !elem_of_cons,
      !elem_of_app.
    tauto.
  - rewrite ?length_app; simpl. rewrite ?length_app; simpl.
    rewrite ?length_app; simpl. lia.
Qed.

Lemma remote_dma_start_operands_cover_futures_witness :
  exists eqn : JaxprEqn,
    [dma_start_eqn
       (PyTuple [PyLeaf (buffer 0 [8]); PyCustom "NDIndexer" [8] [PyLeaf (scalar_i32 1)];
                 PyLeaf (buffer 2 [8]); PyCustom "NDIndexer" [8] [PyLeaf (scalar_i32 3)];
                 PyLeaf (semaphore 5 DMA); PyLeaf (semaphore 4 DMA);
                 PyLeaf (scalar_i32 6)])]
    = [] ++ [eqn]
    /\ length (invars eqn) = (3 + 3 + 1)%nat.
Proof.
  destruct (remote_dma_start_operands_cover_futures one_index_per_dim
              (buffer 0 [8]) (buffer 2 [8]) [scalar_i32 1] [scalar_i32 3]
              (PyLeaf (semaphore 4 DMA)) (PyLeaf (semaphore 5 DMA))
              (PyLeaf (scalar_i32 6))
              (mkDMAFuture [semaphore 4 DMA; buffer 0 [8]; scalar_i32 1]
                 (TupleDef [LeafDef; LeafDef; CustomDef "NDIndexer" [8] [LeafDef]]))
              (mkDMAFuture [semaphore 5 DMA; buffer 2 [8]; scalar_i32 3]
                 (TupleDef [LeafDef; LeafDef; CustomDef "NDIndexer" [8] [LeafDef]]))
              []
              [dma_start_eqn
                 (PyTuple [PyLeaf (buffer 0 [8]);
                           PyCustom "NDIndexer" [8] [PyLeaf (scalar_i32 1)];
                           PyLeaf (buffer 2 [8]);
                           PyCustom "NDIndexer" [8] [PyLeaf (scalar_i32 3)];
                           PyLeaf (semaphore 5 DMA); PyLeaf (semaphore 4 DMA);
                           PyLeaf (scalar_i32 6)])])
    as (eqn & Hst & _ & Hlen).
  - reflexivity.
  - exists eqn. split; [exact Hst | exact Hlen].
Defined.

(** ** The registry: results and effects *)

(** Every primitive registered with [multiple_results] produces no results:
    only [repeat] and [device_id] have an output. *)
Theorem multiple_results_primitives_produce_nothing (p : Primitive)
    (avals outs : list AbstractValue) (params : Params) (effs : gset Effect) :
  multiple_results p = true ->
  abstract_eval p avals params = Ok (outs, effs) ->
  outs = [].
Proof.
  intros Hmulti Heval.
  destruct p; try discriminate Hmulti; destruct params; try discriminate Heval;
    simpl in Heval.
  - destruct avals; try discriminate Heval. by injection Heval as <- <-.
  - destruct avals; try discriminate Heval. by injection Heval as <- <-.
  - by injection Heval as <- <-.
  - destruct avals as [|sem_aval [|value args]]; try discriminate Heval.
    destruct (_semaphore_signal_abstract_eval sem_aval value args has_device_id)
      as [outs'|?] eqn:Hsig; [|discriminate Heval].
    simpl in Heval. injection Heval as <- <-.
    by apply semaphore_signal_abstract_eval_Ok_nil in Hsig.
  - destruct avals as [|sem_aval [|value [|? ?]]]; try discriminate Heval.
    destruct (_semaphore_wait_abstract_eval sem_aval value)
      as [outs'|?] eqn:Hw; [|discriminate Heval].
    simpl in Heval. injection Heval as <- <-.
    by apply semaphore_wait_abstract_eval_Ok_nil in Hw.
  - by injection Heval as <- <-.
  - by injection Heval as <- <-.
Qed.

Lemma multiple_results_primitives_produce_nothing_witness :
  fst (_run_scoped_abstract_eval [AbstractRef [8] float32] scoped_jaxpr) = [].
Proof.
  apply (multiple_results_primitives_produce_nothing run_scoped_p
           [AbstractRef [8] float32]
           (fst (_run_scoped_abstract_eval [AbstractRef [8] float32] scoped_jaxpr))
           (run_scoped_params scoped_jaxpr)
           (snd (_run_scoped_abstract_eval [AbstractRef [8] float32] scoped_jaxpr))).
  - reflexivity.
  - reflexivity.
Defined.

Lemma effectless_rules_witness :
  exists (outs : list AbstractValue) (effs : gset Effect),
    abstract_eval semaphore_wait_p
      [AbstractSemaphore REGULAR; ShapedArray [] int32] no_params
    = Ok (outs, effs)
    /\ effs = no_effects.
Proof.
  eexists _, _. split; [reflexivity|].
  apply (effectless_rules semaphore_wait_p
           [AbstractSemaphore REGULAR; ShapedArray [] int32] [] no_params).
  - discriminate.
  - reflexivity.
Defined.
